(** * DXF export service: conversion and validation engine

    Shallow embedding of [services/dxf-export/src/services/dxf_export_service.py]
    and of the models of [services/dxf-export/src/models/export_models.py]
    that it reads, followed by the properties of the engine.

    Python values that reach the engine through an entity's open field bag
    are embedded as the inductive [value]; Python exceptions are explicit
    ([result]); the ezdxf modelspace is the list of primitives added so far. *)

From Stdlib Require Import ZArith Ascii Floats.SpecFloat.
From stdpp Require Import gmap strings list.

Set Warnings "-register-all".
Local Open Scope Z_scope.

(* ========================================================================= *)
(** ** Python values, floats and exceptions *)
(* ========================================================================= *)

(** A Python [float] is an IEEE-754 binary64 number. *)
Abbreviation pyfloat := spec_float.

(** What [model_dump()] can hold in an entity's field bag: the JSON values,
    plus tuples, which the extractors test for next to lists. *)
Inductive value : Type :=
| VNone
| VBool (b : bool)
| VInt (z : Z)
| VFloat (f : pyfloat)
| VStr (s : string)
| VList (l : list value)
| VTuple (l : list value)
| VDict (d : gmap string value).

(** The exceptions the engine can meet. The last one stands for whatever the
    ezdxf document writer raises. *)
Inductive exn : Type :=
| TypeError
| ValueError
| OverflowError
| WriterError (msg : string).

Inductive result (A : Type) : Type :=
| Ok (a : A)
| Raise (e : exn).
Arguments Ok {A} a.
Arguments Raise {A} e.

#[global] Instance result_ret : MRet result := fun A a => Ok a.
#[global] Instance result_bind : MBind result := fun A B f m =>
  match m with
  | Ok a => f a
  | Raise e => Raise e
  end.

(** [float(n)] for an [int]: nearest binary64, ties to even. *)
Definition float_of_Z (z : Z) : pyfloat := binary_normalize 53 1024 z 0 false.

Definition float_zero : pyfloat := S754_zero false.
Definition float_one : pyfloat := Eval vm_compute in float_of_Z 1.
(** The literal [2.5], the default text height. *)
Definition float_2_5 : pyfloat := Eval vm_compute in binary_normalize 53 1024 5 (-1) false.

(** [bool(f)] for a float: false exactly for [0.0] and [-0.0]. *)
Definition float_truthy (f : pyfloat) : bool :=
  match f with
  | S754_zero _ => false
  | _ => true
  end.

(** [x is not None]. *)
Definition is_not_none (x : value) : bool :=
  match x with
  | VNone => false
  | _ => true
  end.

(** [d.get(key, default)]. *)
Definition dict_get (d : gmap string value) (key : string) (default : value) : value :=
  match d !! key with
  | Some v => v
  | None => default
  end.

(* ========================================================================= *)
(** ** Models ([export_models.py]) *)
(* ========================================================================= *)

Inductive DxfVersion : Type :=
| AC1009 | AC1015 | AC1018 | AC1021 | AC1024 | AC1027 | AC1032.

#[global] Instance DxfVersion_eq_dec : EqDecision DxfVersion.
Proof. solve_decision. Defined.

Inductive DxfEncoding : Type := UTF8 | CP1252 | CP1253 | ASCII.

Inductive DxfExportStatus : Type := SUCCESS | PARTIAL | ERROR.

Inductive IssueSeverity : Type := SevERROR | SevWARNING | SevINFO.

#[global] Instance IssueSeverity_eq_dec : EqDecision IssueSeverity.
Proof. solve_decision. Defined.

Record DxfLayerConfig : Type := {
  visible_only : bool;
  include_locked : bool;
  flatten_to_layer : option string;
  layer_mapping : gmap string string;
  default_layer : string
}.

(** The settings the engine itself reads. Units, quality, metadata flags and
    custom header variables are consumed by the document set-up only. *)
Record DxfExportSettings : Type := {
  version : DxfVersion;
  encoding : DxfEncoding;
  layers : DxfLayerConfig
}.

(** [SceneEntity] has [extra="allow"]: [se_extra] is the bag of additional
    fields. A declared field never appears in the bag. *)
Record SceneEntity : Type := {
  se_id : string;
  se_type : string;
  se_layer : string;
  se_color : option string;
  se_visible : bool;
  se_extra : gmap string value
}.

Record SceneLayer : Type := {
  sl_name : string;
  sl_color : option string;
  sl_visible : bool;
  sl_locked : bool;
  sl_line_type : string
}.

Record SceneModel : Type := {
  entities : list SceneEntity;
  scene_layers : list SceneLayer;
  metadata : gmap string value
}.

(** The [error] field holds either a literal message or [str(e)] of a caught
    exception. *)
Inductive error_text : Type :=
| ErrMsg (s : string)
| ErrOfExn (e : exn).

Record DxfEntityExportResult : Type := {
  entity_id : string;
  success : bool;
  dxf_type : option string;
  warnings : list string;
  error : option error_text
}.

Record ExportStats : Type := {
  total_entities : Z;
  exported_entities : Z;
  skipped_entities : Z;
  failed_entities : Z
}.

(** [data], [file_size], [filename], [layers_exported] and [export_time_ms]
    come from the document writer and the caller; they are not part of the
    embedding. *)
Record DxfExportResponse : Type := {
  status : DxfExportStatus;
  stats : ExportStats;
  entity_results : list DxfEntityExportResult;
  response_warnings : list string
}.

Record ValidationIssue : Type := {
  severity : IssueSeverity;
  code : string;
  message : string;
  suggestion : option string
}.

Record DxfEntityValidationResult : Type := {
  v_entity_id : string;
  v_entity_type : string;
  exportable : bool;
  issues : list ValidationIssue
}.

Record IssueSummary : Type := {
  errors : Z;
  summary_warnings : Z;
  info : Z
}.

Record DxfExportValidationResponse : Type := {
  valid : bool;
  target_version : DxfVersion;
  v_total_entities : Z;
  exportable_entities : Z;
  non_exportable_entities : Z;
  v_entity_results : list DxfEntityValidationResult;
  issue_summary : IssueSummary
}.

(** [entity.model_dump()]: the declared fields together with the extras. *)
Definition model_dump (e : SceneEntity) : gmap string value :=
  <["id" := VStr (se_id e)]>
  (<["type" := VStr (se_type e)]>
  (<["layer" := VStr (se_layer e)]>
  (<["color" := from_option VStr VNone (se_color e)]>
  (<["visible" := VBool (se_visible e)]> (se_extra e))))).

(* ========================================================================= *)
(** ** Static tables *)
(* ========================================================================= *)

Definition ENTITY_TYPE_MAPPING : gmap string (option string) :=
  list_to_map
    [ ("line", Some "LINE");
      ("polyline", Some "POLYLINE");
      ("lwpolyline", Some "LWPOLYLINE");
      ("circle", Some "CIRCLE");
      ("arc", Some "ARC");
      ("ellipse", Some "ELLIPSE");
      ("text", Some "TEXT");
      ("mtext", Some "MTEXT");
      ("spline", Some "SPLINE");
      ("rectangle", Some "LWPOLYLINE");
      ("rect", Some "LWPOLYLINE");
      ("point", Some "POINT");
      ("dimension", Some "DIMENSION");
      ("block", Some "INSERT");
      ("angle-measurement", None);
      ("leader", Some "LEADER");
      ("hatch", Some "HATCH");
      ("xline", Some "XLINE");
      ("ray", Some "RAY") ].

(** [ENTITY_TYPE_MAPPING.get(kind)]: an unknown kind and a kind mapped to
    [None] both give [None]. *)
Definition ENTITY_TYPE_MAPPING_get (kind : string) : option string :=
  match ENTITY_TYPE_MAPPING !! kind with
  | Some t => t
  | None => None
  end.

Definition DXF_VERSION_MAP (v : DxfVersion) : string :=
  match v with
  | AC1009 => "R12"
  | AC1015 => "R2000"
  | AC1018 => "R2004"
  | AC1021 => "R2007"
  | AC1024 => "R2010"
  | AC1027 => "R2013"
  | AC1032 => "R2018"
  end.

Definition R12_SUPPORTED_TYPES : gset string :=
  list_to_set ["LINE"; "POLYLINE"; "CIRCLE"; "ARC"; "TEXT"; "POINT"].

(** The condition of both R12 checks:
    [version == DxfVersion.AC1009 and dxf_type not in R12_SUPPORTED_TYPES]. *)
Definition r12_incompatible (v : DxfVersion) (dxf_type : string) : bool :=
  bool_decide (v = AC1009) && bool_decide (dxf_type ∉ R12_SUPPORTED_TYPES).

(* ========================================================================= *)
(** ** Python truthiness helpers *)
(* ========================================================================= *)

(** [bool(s)] for a [str]: false exactly for the empty string. *)
Definition str_truthy (s : string) : bool :=
  match s with
  | EmptyString => false
  | String _ _ => true
  end.

(** [bool(x)] for a [str | None]. *)
Definition opt_str_truthy (o : option string) : bool :=
  match o with
  | Some s => str_truthy s
  | None => false
  end.

(** [bool(l)] for a [list | None]. *)
Definition opt_list_truthy {A : Type} (o : option (list A)) : bool :=
  match o with
  | Some (_ :: _) => true
  | _ => false
  end.

(* ========================================================================= *)
(** ** Layer routing ([_get_target_layer]) *)
(* ========================================================================= *)

Definition _get_target_layer (entity_layer : string) (config : DxfLayerConfig) : string :=
  if opt_str_truthy (flatten_to_layer config)
  then default "" (flatten_to_layer config)
  else
    let mapped := default entity_layer (layer_mapping config !! entity_layer) in
    if str_truthy mapped then mapped else default_layer config.

(* ========================================================================= *)
(** ** Entity filter ([_filter_entities]) *)
(* ========================================================================= *)

Definition _filter_entities
    (entities : list SceneEntity)
    (entity_ids : option (list string))
    (layer_names : option (list string))
    (config : DxfLayerConfig) : list SceneEntity :=
  let filtered := entities in
  let filtered :=
    if opt_list_truthy entity_ids
    then
      let id_set : gset string := list_to_set (default [] entity_ids) in
      filter (λ e, se_id e ∈ id_set) filtered
    else filtered in
  let filtered :=
    if opt_list_truthy layer_names
    then
      let layer_set : gset string := list_to_set (default [] layer_names) in
      filter (λ e, se_layer e ∈ layer_set) filtered
    else filtered in
  let filtered :=
    if visible_only config
    then filter (λ e, se_visible e = true) filtered
    else filtered in
  filtered.

(* ========================================================================= *)
(** ** Validation ([_validate_entity], [validate_scene]) *)
(* ========================================================================= *)

Definition _validate_entity (entity : SceneEntity) (target_version : DxfVersion)
  : DxfEntityValidationResult :=
  let issues : list ValidationIssue := [] in
  match ENTITY_TYPE_MAPPING_get (se_type entity) with
  | None =>
      let issues := issues ++
        [ {| severity := SevWARNING;
             code := "NOT_EXPORTABLE";
             message := "Entity type '" +:+ se_type entity +:+ "' cannot be exported to DXF";
             suggestion := Some "This entity will be skipped during export" |} ] in
      {| v_entity_id := se_id entity;
         v_entity_type := se_type entity;
         exportable := false;
         issues := issues |}
  | Some dxf_type =>
      if r12_incompatible target_version dxf_type
      then
        let issues := issues ++
          [ {| severity := SevERROR;
               code := "VERSION_INCOMPATIBLE";
               message := "Entity type '" +:+ dxf_type +:+ "' not supported in R12";
               suggestion := Some "Use R2000 (AC1015) or later for full entity support" |} ] in
        {| v_entity_id := se_id entity;
           v_entity_type := se_type entity;
           exportable := false;
           issues := issues |}
      else
        {| v_entity_id := se_id entity;
           v_entity_type := se_type entity;
           exportable := true;
           issues := issues |}
  end.

(** The accumulators of the loop of [validate_scene]. *)
Record validation_acc : Type := {
  va_entity_results : list DxfEntityValidationResult;
  va_exportable_count : Z;
  va_error_count : Z;
  va_warning_count : Z;
  va_info_count : Z
}.

(** The inner loop over [result.issues]: one counter moves per issue. *)
Definition count_issue (c : Z * Z * Z) (issue : ValidationIssue) : Z * Z * Z :=
  let '(error_count, warning_count, info_count) := c in
  match severity issue with
  | SevERROR => (error_count + 1, warning_count, info_count)
  | SevWARNING => (error_count, warning_count + 1, info_count)
  | SevINFO => (error_count, warning_count, info_count + 1)
  end.

(** One turn of the loop over [scene.entities]. *)
Definition validate_step (target_version : DxfVersion)
    (acc : validation_acc) (entity : SceneEntity) : validation_acc :=
  let result := _validate_entity entity target_version in
  let '(error_count, warning_count, info_count) :=
    fold_left count_issue (issues result)
      (va_error_count acc, va_warning_count acc, va_info_count acc) in
  {| va_entity_results := va_entity_results acc ++ [result];
     va_exportable_count :=
       if exportable result
       then va_exportable_count acc + 1
       else va_exportable_count acc;
     va_error_count := error_count;
     va_warning_count := warning_count;
     va_info_count := info_count |}.

Definition validate_scene (scene : SceneModel) (target_version : DxfVersion)
  : DxfExportValidationResponse :=
  let acc :=
    fold_left (validate_step target_version) (entities scene)
      {| va_entity_results := [];
         va_exportable_count := 0;
         va_error_count := 0;
         va_warning_count := 0;
         va_info_count := 0 |} in
  let valid := bool_decide (va_error_count acc = 0) in
  {| valid := valid;
     target_version := target_version;
     v_total_entities := Z.of_nat (length (entities scene));
     exportable_entities := va_exportable_count acc;
     non_exportable_entities :=
       Z.of_nat (length (entities scene)) - va_exportable_count acc;
     v_entity_results := va_entity_results acc;
     issue_summary :=
       {| errors := va_error_count acc;
          summary_warnings := va_warning_count acc;
          info := va_info_count acc |} |}.

(* ========================================================================= *)
(** ** The document writer (ezdxf) as the engine sees it *)
(* ========================================================================= *)

Definition point : Type := pyfloat * pyfloat.

(** Values of the [dxfattribs] dictionary. *)
Inductive attr : Type :=
| AStr (s : string)
| AInt (z : Z)
| AFloat (f : pyfloat).

(** One constructor per [msp.add_*] call of the builders. *)
Inductive primitive : Type :=
| Line (start end_ : point) (attribs : gmap string attr)
| LwPolyline (points : list point) (close : bool) (attribs : gmap string attr)
| Circle (center : point) (radius : pyfloat) (attribs : gmap string attr)
| Arc (center : point) (radius start_angle end_angle : pyfloat) (attribs : gmap string attr)
| Text (text : string) (attribs : gmap string attr) (placement : point)
| Point (location : point) (attribs : gmap string attr).

(** The modelspace of a document created by [ezdxf.new(dxfversion=...)]:
    the primitives added so far, oldest first. *)
Record Modelspace : Type := {
  dxfversion : string;
  drawn : list primitive
}.

Definition color_map : gmap string Z :=
  list_to_map
    [ ("#FF0000", 1); ("#FFFF00", 2); ("#00FF00", 3); ("#00FFFF", 4);
      ("#0000FF", 5); ("#FF00FF", 6); ("#FFFFFF", 7); ("#000000", 0) ].

(* ========================================================================= *)
(** ** Geometry extraction ([_get_point], [_get_points], [_get_float],
       [_get_string], [_get_bool]) *)
(* ========================================================================= *)

Section Engine.

(** Python's [float(s)] on a [str]: [None] when it raises [ValueError]. *)
Variable float_of_str : string -> option pyfloat.

(** Python's [float(x)]. *)
Definition py_float (x : value) : result pyfloat :=
  match x with
  | VNone => Raise TypeError
  | VBool b => Ok (if b then float_one else float_zero)
  | VInt z =>
      match float_of_Z z with
      | S754_infinity _ => Raise OverflowError
      | f => Ok f
      end
  | VFloat f => Ok f
  | VStr s =>
      match float_of_str s with
      | Some f => Ok f
      | None => Raise ValueError
      end
  | VList _ | VTuple _ | VDict _ => Raise TypeError
  end.

(** [(float(a), float(b))], left to right. *)
Definition float_pair (a b : value) : result point :=
  x ← py_float a; y ← py_float b; mret (x, y).

(** The body that [_get_point] runs on the value of an alias and that
    [_get_points] runs on each item: [Ok (Some p)] is the point it yields,
    [Ok None] means the value has not the shape of a point and is passed
    over. *)
Definition point_of_value (val : value) : result (option point) :=
  match val with
  | VDict d =>
      let x := dict_get d "x" (dict_get d "X" VNone) in
      let y := dict_get d "y" (dict_get d "Y" VNone) in
      if is_not_none x && is_not_none y
      then p ← float_pair x y; mret (Some p)
      else mret None
  | VList l | VTuple l =>
      match l with
      | a :: b :: _ => p ← float_pair a b; mret (Some p)      (* len(val) >= 2 *)
      | _ => mret None
      end
  | _ => mret None
  end.

Fixpoint _get_point_in (data : gmap string value) (keys : list string)
  : result (option point) :=
  match keys with
  | [] => mret None
  | key :: keys' =>
      match data !! key with
      | Some val =>
          r ← point_of_value val;
          match r with
          | Some p => mret (Some p)
          | None => _get_point_in data keys'
          end
      | None => _get_point_in data keys'
      end
  end.

Definition _get_point (entity : SceneEntity) (keys : list string)
  : result (option point) :=
  _get_point_in (model_dump entity) keys.

(** The inner loop of [_get_points]: items that are not point-shaped are
    dropped. *)
Fixpoint collect_points (items : list value) : result (list point) :=
  match items with
  | [] => mret []
  | item :: items' =>
      r ← point_of_value item;
      points ← collect_points items';
      mret (match r with
            | Some p => p :: points
            | None => points
            end)
  end.

(** The body of [_get_points] on the value of an alias: only a [list]
    is looked into, and an empty outcome is passed over. *)
Definition points_of_value (val : value) : result (option (list point)) :=
  match val with
  | VList l =>
      points ← collect_points l;
      mret (match points with
            | [] => None
            | _ => Some points
            end)
  | _ => mret None
  end.

Fixpoint _get_points_in (data : gmap string value) (keys : list string)
  : result (option (list point)) :=
  match keys with
  | [] => mret None
  | key :: keys' =>
      match data !! key with
      | Some val =>
          r ← points_of_value val;
          match r with
          | Some points => mret (Some points)
          | None => _get_points_in data keys'
          end
      | None => _get_points_in data keys'
      end
  end.

Definition _get_points (entity : SceneEntity) (keys : list string)
  : result (option (list point)) :=
  _get_points_in (model_dump entity) keys.

(** [isinstance(val, (int, float))] holds for a [bool] too. *)
Definition float_of_value (val : value) : result (option pyfloat) :=
  match val with
  | VBool _ | VInt _ | VFloat _ => f ← py_float val; mret (Some f)
  | _ => mret None
  end.

Fixpoint _get_float_in (data : gmap string value) (keys : list string)
  : result (option pyfloat) :=
  match keys with
  | [] => mret None
  | key :: keys' =>
      match data !! key with
      | Some val =>
          r ← float_of_value val;
          match r with
          | Some f => mret (Some f)
          | None => _get_float_in data keys'
          end
      | None => _get_float_in data keys'
      end
  end.

Definition _get_float (entity : SceneEntity) (keys : list string)
  : result (option pyfloat) :=
  _get_float_in (model_dump entity) keys.

Definition string_of_value (val : value) : result (option string) :=
  match val with
  | VStr s => mret (Some s)
  | _ => mret None
  end.

Fixpoint _get_string_in (data : gmap string value) (keys : list string)
  : result (option string) :=
  match keys with
  | [] => mret None
  | key :: keys' =>
      match data !! key with
      | Some val =>
          r ← string_of_value val;
          match r with
          | Some s => mret (Some s)
          | None => _get_string_in data keys'
          end
      | None => _get_string_in data keys'
      end
  end.

Definition _get_string (entity : SceneEntity) (keys : list string)
  : result (option string) :=
  _get_string_in (model_dump entity) keys.

Fixpoint _get_bool_in (data : gmap string value) (keys : list string) : bool :=
  match keys with
  | [] => false
  | key :: keys' =>
      match data !! key with
      | Some (VBool b) => b
      | _ => _get_bool_in data keys'
      end
  end.

Definition _get_bool (entity : SceneEntity) (keys : list string) : bool :=
  _get_bool_in (model_dump entity) keys.


(* ----------------------------------------------------------------------- *)
(** *** Colour index ([_hex_to_aci]) and the writer *)
(* ----------------------------------------------------------------------- *)

(** Python's [s.upper()]. *)
Variable str_upper : string -> string.

Definition _hex_to_aci (hex_color : string) : Z :=
  let normalized := str_upper hex_color in
  match color_map !! normalized with
  | Some aci => aci
  | None => 7
  end.

(** [Some e] when the [msp.add_*] call for this primitive raises [e]; the
    modelspace is then left as it was. *)
Variable writer_raises : Modelspace -> primitive -> option exn.

Definition msp_add (msp : Modelspace) (p : primitive) : result Modelspace :=
  match writer_raises msp p with
  | Some e => Raise e
  | None => Ok {| dxfversion := dxfversion msp; drawn := drawn msp ++ [p] |}
  end.

(* ----------------------------------------------------------------------- *)
(** *** Entity type handlers *)
(* ----------------------------------------------------------------------- *)

Definition _export_line (msp : Modelspace) (entity : SceneEntity)
    (attribs : gmap string attr) : result Modelspace :=
  start ← _get_point entity ["start"; "startPoint"; "p1"];
  end_ ← _get_point entity ["end"; "endPoint"; "p2"];
  match start, end_ with
  | Some s, Some e => msp_add msp (Line s e attribs)
  | _, _ => mret msp
  end.

Definition _export_lwpolyline (msp : Modelspace) (entity : SceneEntity)
    (attribs : gmap string attr) : result Modelspace :=
  points ← _get_points entity ["points"; "vertices"; "polygon"];
  match points with
  | Some pts =>
      if bool_decide (2 ≤ length pts)%nat
      then
        let is_closed := _get_bool entity ["closed"; "isClosed"] in
        let is_closed :=
          if bool_decide (se_type entity ∈ ["rectangle"; "rect"])
          then true
          else is_closed in
        msp_add msp (LwPolyline pts is_closed attribs)
      else mret msp
  | None => mret msp
  end.

Definition _export_circle (msp : Modelspace) (entity : SceneEntity)
    (attribs : gmap string attr) : result Modelspace :=
  center ← _get_point entity ["center"; "centerPoint"];
  radius ← _get_float entity ["radius"; "r"];
  match center, radius with
  | Some c, Some r =>
      if float_truthy r
      then msp_add msp (Circle c r attribs)
      else mret msp
  | _, _ => mret msp
  end.

Definition _export_arc (msp : Modelspace) (entity : SceneEntity)
    (attribs : gmap string attr) : result Modelspace :=
  center ← _get_point entity ["center"; "centerPoint"];
  radius ← _get_float entity ["radius"; "r"];
  start_angle ← _get_float entity ["startAngle"; "start_angle"];
  end_angle ← _get_float entity ["endAngle"; "end_angle"];
  match center, radius, start_angle, end_angle with
  | Some c, Some r, Some sa, Some ea => msp_add msp (Arc c r sa ea attribs)
  | _, _, _, _ => mret msp
  end.

Definition _export_text (msp : Modelspace) (entity : SceneEntity)
    (attribs : gmap string attr) : result Modelspace :=
  insert ← _get_point entity ["insert"; "position"; "location"];
  text ← _get_string entity ["text"; "content"; "value"];
  h ← _get_float entity ["height"; "fontSize"];
  let height :=
    match h with
    | Some f => if float_truthy f then f else float_2_5
    | None => float_2_5
    end in
  match insert, text with
  | Some ins, Some t =>
      if str_truthy t
      then
        let attribs := <["height" := AFloat height]> attribs in
        r ← _get_float entity ["rotation"; "angle"];
        let rotation :=
          match r with
          | Some f => if float_truthy f then AFloat f else AInt 0
          | None => AInt 0
          end in
        let attribs := <["rotation" := rotation]> attribs in
        msp_add msp (Text t attribs ins)
      else mret msp
  | _, _ => mret msp
  end.

Definition _export_point (msp : Modelspace) (entity : SceneEntity)
    (attribs : gmap string attr) : result Modelspace :=
  location ← _get_point entity ["location"; "position"; "point"];
  match location with
  | Some l => msp_add msp (Point l attribs)
  | None => mret msp
  end.

(* ----------------------------------------------------------------------- *)
(** *** [_export_entity] *)
(* ----------------------------------------------------------------------- *)

(** The [if]/[elif] chain on [dxf_type]; [None] is its [else] branch. *)
Definition dispatch (dxf_type : string)
  : option (Modelspace -> SceneEntity -> gmap string attr -> result Modelspace) :=
  if decide (dxf_type = "LINE") then Some _export_line
  else if decide (dxf_type = "LWPOLYLINE") then Some _export_lwpolyline
  else if decide (dxf_type = "CIRCLE") then Some _export_circle
  else if decide (dxf_type = "ARC") then Some _export_arc
  else if decide (dxf_type = "TEXT") then Some _export_text
  else if decide (dxf_type = "POINT") then Some _export_point
  else None.

(** The common [attribs] dictionary. *)
Definition common_attribs (entity : SceneEntity) (settings : DxfExportSettings)
  : gmap string attr :=
  let layer := _get_target_layer (se_layer entity) (layers settings) in
  let attribs : gmap string attr := {[ "layer" := AStr layer ]} in
  if opt_str_truthy (se_color entity)
  then <["color" := AInt (_hex_to_aci (default "" (se_color entity)))]> attribs
  else attribs.

Definition _export_entity (msp : Modelspace) (entity : SceneEntity)
    (settings : DxfExportSettings) : Modelspace * DxfEntityExportResult :=
  let warnings : list string := [] in
  match ENTITY_TYPE_MAPPING_get (se_type entity) with
  | None =>
      (msp,
       {| entity_id := se_id entity;
          success := false;
          dxf_type := None;
          warnings := ["Entity type '" +:+ se_type entity +:+ "' is not exportable"];
          error := None |})
  | Some dxf_type =>
      if r12_incompatible (version settings) dxf_type
      then
        (msp,
         {| entity_id := se_id entity;
            success := false;
            dxf_type := Some dxf_type;
            warnings := ["Entity type '" +:+ dxf_type +:+ "' not supported in R12"];
            error := Some (ErrMsg "R12 version does not support this entity type") |})
      else
        let attribs := common_attribs entity settings in
        match dispatch dxf_type with
        | Some builder =>
            match builder msp entity attribs with
            | Ok msp' =>
                (msp',
                 {| entity_id := se_id entity;
                    success := true;
                    dxf_type := Some dxf_type;
                    warnings := warnings;
                    error := None |})
            | Raise e =>
                (msp,
                 {| entity_id := se_id entity;
                    success := false;
                    dxf_type := Some dxf_type;
                    warnings := warnings;
                    error := Some (ErrOfExn e) |})
            end
        | None =>
            let warnings :=
              warnings ++ ["Export for '" +:+ dxf_type +:+ "' not yet implemented"] in
            (msp,
             {| entity_id := se_id entity;
                success := false;
                dxf_type := Some dxf_type;
                warnings := warnings;
                error := Some (ErrMsg "Entity type export not implemented") |})
        end
  end.

(* ----------------------------------------------------------------------- *)
(** *** [export_scene] *)
(* ----------------------------------------------------------------------- *)

(** The three counters of the loop, [(exported, skipped, failed)], and the
    [if]/[elif]/[else] that moves one of them per result. *)
Definition tally (result : DxfEntityExportResult) (c : Z * Z * Z) : Z * Z * Z :=
  let '(exported_count, skipped_count, failed_count) := c in
  if success result
  then (exported_count + 1, skipped_count, failed_count)
  else
    match dxf_type result with
    | None => (exported_count, skipped_count + 1, failed_count)
    | Some _ => (exported_count, skipped_count, failed_count + 1)
    end.

Record export_acc : Type := {
  ea_msp : Modelspace;
  ea_entity_results : list DxfEntityExportResult;
  ea_counts : Z * Z * Z;
  ea_warnings : list string
}.

(** One turn of the loop over [entities_to_export]. *)
Definition export_step (settings : DxfExportSettings)
    (acc : export_acc) (entity : SceneEntity) : export_acc :=
  let '(msp, result) := _export_entity (ea_msp acc) entity settings in
  {| ea_msp := msp;
     ea_entity_results := ea_entity_results acc ++ [result];
     ea_counts := tally result (ea_counts acc);
     ea_warnings := ea_warnings acc ++ warnings result |}.

(** The [# Determine status] block. *)
Definition determine_status (exported_count failed_count : Z) : DxfExportStatus :=
  if bool_decide (failed_count > 0)
  then (if bool_decide (exported_count > 0) then PARTIAL else ERROR)
  else SUCCESS.

(** Creating the document, setting its header variables and creating its
    layers touch the header and the layer table only; all the engine needs
    of them is whether they raise. *)
Variable setup_raises : SceneModel -> DxfExportSettings -> option exn.

(** [_generate_dxf_content]: writing and encoding the document may raise. *)
Variable serialize_raises : Modelspace -> DxfEncoding -> option exn.

Definition export_scene (scene : SceneModel) (settings : DxfExportSettings)
    (entity_ids layer_names : option (list string)) : result DxfExportResponse :=
  let dxf_version := DXF_VERSION_MAP (version settings) in
  match setup_raises scene settings with
  | Some e => Raise e
  | None =>
      let msp := {| dxfversion := dxf_version; drawn := [] |} in
      let entities_to_export :=
        _filter_entities (entities scene) entity_ids layer_names (layers settings) in
      let acc :=
        fold_left (export_step settings) entities_to_export
          {| ea_msp := msp;
             ea_entity_results := [];
             ea_counts := (0, 0, 0);
             ea_warnings := [] |} in
      let '(exported_count, skipped_count, failed_count) := ea_counts acc in
      match serialize_raises (ea_msp acc) (encoding settings) with
      | Some e => Raise e
      | None =>
          let status := determine_status exported_count failed_count in
          Ok {| status := status;
                stats :=
                  {| total_entities := Z.of_nat (length (entities scene));
                     exported_entities := exported_count;
                     skipped_entities := skipped_count;
                     failed_entities := failed_count |};
                entity_results := ea_entity_results acc;
                response_warnings := ea_warnings acc |}
      end
  end.

End Engine.

(* ========================================================================= *)
(** ** Reading the results: the three categories of a per-entity result *)
(* ========================================================================= *)

Definition is_exported (r : DxfEntityExportResult) : Prop :=
  success r = true.
Definition is_skipped (r : DxfEntityExportResult) : Prop :=
  success r = false ∧ dxf_type r = None.
Definition is_failed (r : DxfEntityExportResult) : Prop :=
  success r = false ∧ dxf_type r ≠ None.

#[global] Instance is_exported_dec r : Decision (is_exported r).
Proof. unfold is_exported. apply _. Defined.
#[global] Instance is_skipped_dec r : Decision (is_skipped r).
Proof. unfold is_skipped. apply _. Defined.
#[global] Instance is_failed_dec r : Decision (is_failed r).
Proof. unfold is_failed. apply _. Defined.

(** How many results of a list fall in a category. *)
Definition how_many (P : DxfEntityExportResult → Prop) `{∀ r, Decision (P r)}
    (rs : list DxfEntityExportResult) : Z :=
  Z.of_nat (length (filter P rs)).

(** All the issues of a validation run, and how many are errors. *)
Definition all_issues (rs : list DxfEntityValidationResult) : list ValidationIssue :=
  concat (map issues rs).

Definition errors_among (l : list ValidationIssue) : Z :=
  Z.of_nat (length (filter (λ i, severity i = SevERROR) l)).
Definition warnings_among (l : list ValidationIssue) : Z :=
  Z.of_nat (length (filter (λ i, severity i = SevWARNING) l)).
Definition infos_among (l : list ValidationIssue) : Z :=
  Z.of_nat (length (filter (λ i, severity i = SevINFO) l)).

(* ========================================================================= *)
(** ** A concrete environment and sample scenes *)
(* ========================================================================= *)

(** [s.upper()] on ASCII letters. *)
Definition ascii_upper_char (c : ascii) : ascii :=
  let n := nat_of_ascii c in
  if (97 <=? n)%nat && (n <=? 122)%nat then ascii_of_nat (n - 32) else c.

Fixpoint ascii_upper (s : string) : string :=
  match s with
  | EmptyString => EmptyString
  | String c s' => String (ascii_upper_char c) (ascii_upper s')
  end.

(** An environment for running the engine on the samples below: [float()]
    refuses every string (none of the samples hands it one), the writer and
    the document set-up accept everything. *)
Definition float_refuses_str : string -> option pyfloat := λ _, None.
Definition writer_accepts : Modelspace -> primitive -> option exn := λ _ _, None.
Definition setup_succeeds : SceneModel -> DxfExportSettings -> option exn := λ _ _, None.
Definition serialize_succeeds : Modelspace -> DxfEncoding -> option exn := λ _ _, None.

(** The defaults of [DxfLayerConfig] and [DxfExportSettings]. *)
Definition default_layer_config : DxfLayerConfig :=
  {| visible_only := true;
     include_locked := false;
     flatten_to_layer := None;
     layer_mapping := ∅;
     default_layer := "0" |}.

Definition default_settings : DxfExportSettings :=
  {| version := AC1015; encoding := UTF8; layers := default_layer_config |}.

Definition r12_settings : DxfExportSettings :=
  {| version := AC1009; encoding := UTF8; layers := default_layer_config |}.

Definition empty_modelspace (v : DxfVersion) : Modelspace :=
  {| dxfversion := DXF_VERSION_MAP v; drawn := [] |}.

Definition mk_entity (id type : string) (extra : list (string * value)) : SceneEntity :=
  {| se_id := id;
     se_type := type;
     se_layer := "0";
     se_color := None;
     se_visible := true;
     se_extra := list_to_map extra |}.

Definition xy (x y : Z) : value := VList [VInt x; VInt y].

(** [{"id": "l1", "type": "line", "start": [0, 0], "end": [10, 0]}] *)
Definition line_full : SceneEntity :=
  mk_entity "l1" "line" [("start", xy 0 0); ("end", xy 10 0)].

(** [{"id": "l2", "type": "line"}]: a line with no geometry at all. *)
Definition line_bare : SceneEntity := mk_entity "l2" "line" [].

(** [{"id": "l3", "type": "line", "start": [null, null], "end": [1, 1]}] *)
Definition line_null_coords : SceneEntity :=
  mk_entity "l3" "line" [("start", VList [VNone; VNone]); ("end", xy 1 1)].

(** [{"id": "s1", "type": "spline"}] *)
Definition spline_entity : SceneEntity := mk_entity "s1" "spline" [].

(** [{"id": "m1", "type": "angle-measurement"}] *)
Definition measurement_entity : SceneEntity := mk_entity "m1" "angle-measurement" [].

(** [{"id": "p1", "type": "polyline", "points": [[0, 0], [5, 5]]}] *)
Definition polyline_entity : SceneEntity :=
  mk_entity "p1" "polyline" [("points", VList [xy 0 0; xy 5 5])].

(** [{"id": "r1", "type": "rectangle", "closed": false,
      "points": [[0, 0], [4, 0], [4, 3], [0, 3]]}] *)
Definition rectangle_entity : SceneEntity :=
  mk_entity "r1" "rectangle"
    [("points", VList [xy 0 0; xy 4 0; xy 4 3; xy 0 3]); ("closed", VBool false)].

(** [{"id": "c1", "type": "circle", "center": [1, 2], "radius": 0}] *)
Definition circle_zero_radius : SceneEntity :=
  mk_entity "c1" "circle" [("center", xy 1 2); ("radius", VInt 0)].

(** [{"id": "c2", "type": "circle", "center": [1, 2], "radius": 2 ** 1024}] *)
Definition huge_radius_circle : SceneEntity :=
  mk_entity "c2" "circle" [("center", xy 1 2); ("radius", VInt (2 ^ 1024))].

Definition mk_scene (ents : list SceneEntity) : SceneModel :=
  {| entities := ents; scene_layers := []; metadata := ∅ |}.

Definition mixed_scene : SceneModel :=
  mk_scene [line_full; measurement_entity; spline_entity; line_bare].

(** What [export_scene] returns on [mixed_scene] with the default settings
    and no filter: the bare line counts as exported. *)
Definition mixed_response : DxfExportResponse :=
  {| status := PARTIAL;
     stats :=
       {| total_entities := 4;
          exported_entities := 2;
          skipped_entities := 1;
          failed_entities := 1 |};
     entity_results :=
       [ {| entity_id := "l1"; success := true; dxf_type := Some "LINE";
            warnings := []; error := None |};
         {| entity_id := "m1"; success := false; dxf_type := None;
            warnings := ["Entity type 'angle-measurement' is not exportable"];
            error := None |};
         {| entity_id := "s1"; success := false; dxf_type := Some "SPLINE";
            warnings := ["Export for 'SPLINE' not yet implemented"];
            error := Some (ErrMsg "Entity type export not implemented") |};
         {| entity_id := "l2"; success := true; dxf_type := Some "LINE";
            warnings := []; error := None |} ];
     response_warnings :=
       [ "Entity type 'angle-measurement' is not exportable";
         "Export for 'SPLINE' not yet implemented" ] |}.

(** The same scene restricted to the ids l1, m1 and s1. *)
Definition ids_response : DxfExportResponse :=
  {| status := PARTIAL;
     stats :=
       {| total_entities := 4;
          exported_entities := 1;
          skipped_entities := 1;
          failed_entities := 1 |};
     entity_results :=
       [ {| entity_id := "l1"; success := true; dxf_type := Some "LINE";
            warnings := []; error := None |};
         {| entity_id := "m1"; success := false; dxf_type := None;
            warnings := ["Entity type 'angle-measurement' is not exportable"];
            error := None |};
         {| entity_id := "s1"; success := false; dxf_type := Some "SPLINE";
            warnings := ["Export for 'SPLINE' not yet implemented"];
            error := Some (ErrMsg "Entity type export not implemented") |} ];
     response_warnings :=
       [ "Entity type 'angle-measurement' is not exportable";
         "Export for 'SPLINE' not yet implemented" ] |}.

(* ========================================================================= *)
(** ** The rules as the specification words them *)
(* ========================================================================= *)

(** Layer routing as specified: the flatten target when one is configured;
    otherwise the mapped name when the layer is a key of the mapping;
    otherwise the declared name, or the default layer when that is empty. *)
Definition specified_target_layer (entity_layer : string) (config : DxfLayerConfig)
  : string :=
  match flatten_to_layer config with
  | Some target => target
  | None =>
      match layer_mapping config !! entity_layer with
      | Some mapped => mapped
      | None =>
          if decide (entity_layer = "") then default_layer config else entity_layer
      end
  end.

(** The id filter as specified: for a provided list, exactly the entities
    whose id is in it, in scene order. *)
Definition specified_id_filter (entities : list SceneEntity) (entity_ids : list string)
  : list SceneEntity :=
  filter (λ e, se_id e ∈ entity_ids) entities.

(** Extraction as specified. An alias is passed over when the bag has no
    such key or when its value has not the requested shape ([parse] gives
    [Ok None]). *)
Definition passed_over {A : Type} (parse : value → result (option A))
    (data : gmap string value) (key : string) : Prop :=
  match data !! key with
  | Some val => parse val = Ok None
  | None => True
  end.

(** [outcome] is what the first alias of [keys] that is not passed over
    yields: its parsed value, or the exception raised while parsing it;
    absent when every alias is passed over. *)
Definition first_alias_yields {A : Type} (parse : value → result (option A))
    (data : gmap string value) (keys : list string)
    (outcome : result (option A)) : Prop :=
  match outcome with
  | Ok None => Forall (passed_over parse data) keys
  | Ok (Some a) =>
      ∃ before key after val,
        keys = before ++ key :: after
        ∧ Forall (passed_over parse data) before
        ∧ data !! key = Some val
        ∧ parse val = Ok (Some a)
  | Raise e =>
      ∃ before key after val,
        keys = before ++ key :: after
        ∧ Forall (passed_over parse data) before
        ∧ data !! key = Some val
        ∧ parse val = Raise e
  end.

(** The two coordinates of a point-shaped value, the ones handed to
    [float()]: [x]/[X] and [y]/[Y] of a mapping that has both, the first two
    elements of a sequence that has at least two. *)
Definition point_coordinates (val : value) : option (value * value) :=
  match val with
  | VDict d =>
      let x := dict_get d "x" (dict_get d "X" VNone) in
      let y := dict_get d "y" (dict_get d "Y" VNone) in
      if is_not_none x && is_not_none y then Some (x, y) else None
  | VList (a :: b :: _) | VTuple (a :: b :: _) => Some (a, b)
  | _ => None
  end.

(** What an entity must satisfy to pass the three stages of the filter. *)
Definition kept_by (entity_ids layer_names : option (list string))
    (config : DxfLayerConfig) (e : SceneEntity) : Prop :=
  (opt_list_truthy entity_ids = true → se_id e ∈ default [] entity_ids)
  ∧ (opt_list_truthy layer_names = true → se_layer e ∈ default [] layer_names)
  ∧ (visible_only config = true → se_visible e = true).

#[global] Instance kept_by_dec ids lns cfg e : Decision (kept_by ids lns cfg e).
Proof. unfold kept_by. apply _. Defined.

(** A routing config whose mapping sends layer A to the empty name. *)
Definition empty_mapping_config : DxfLayerConfig :=
  {| visible_only := true;
     include_locked := false;
     flatten_to_layer := None;
     layer_mapping := {[ "A" := "" ]};
     default_layer := "0" |}.

(** A routing config that flattens everything to layer OUT and also maps
    layer A to layer B. *)
Definition flatten_config : DxfLayerConfig :=
  {| visible_only := true;
     include_locked := false;
     flatten_to_layer := Some "OUT";
     layer_mapping := {[ "A" := "B" ]};
     default_layer := "0" |}.

(** The point [(float(x), float(y))] of two integers. *)
Definition pt (x y : Z) : point := (float_of_Z x, float_of_Z y).

(** The converter in the sample environment. *)
Definition export_entity_in_sample
  : Modelspace → SceneEntity → DxfExportSettings → Modelspace * DxfEntityExportResult :=
  _export_entity float_refuses_str ascii_upper writer_accepts.

(* ========================================================================= *)
(** ** Readers and samples for the builders *)
(* ========================================================================= *)

(** The [dxfattribs] a primitive was added with. *)
Definition primitive_attribs (p : primitive) : gmap string attr :=
  match p with
  | Line _ _ attribs => attribs
  | LwPolyline _ _ attribs => attribs
  | Circle _ _ attribs => attribs
  | Arc _ _ _ _ attribs => attribs
  | Text _ attribs _ => attribs
  | Point _ attribs => attribs
  end.

(** The layer every primitive of an entity is to be drawn on. *)
Definition target_layer_of (entity : SceneEntity) (settings : DxfExportSettings) : attr :=
  AStr (_get_target_layer (se_layer entity) (layers settings)).

(** [{"id": "a1", "type": "arc", "center": [1, 2], "radius": 0,
      "startAngle": 0, "endAngle": 90}] *)
Definition arc_zero_radius : SceneEntity :=
  mk_entity "a1" "arc"
    [("center", xy 1 2); ("radius", VInt 0); ("startAngle", VInt 0);
     ("endAngle", VInt 90)].

(** [{"id": "t1", "type": "text", "position": [1, 1], "content": "hello",
      "height": 0}] *)
Definition text_entity : SceneEntity :=
  mk_entity "t1" "text"
    [("position", xy 1 1); ("content", VStr "hello"); ("height", VInt 0)].

(** [{"id": "q1", "type": "point", "position": [3, 4]}] *)
Definition point_entity : SceneEntity :=
  mk_entity "q1" "point" [("position", xy 3 4)].

(** [{"id": "k1", "type": "line", "color": "#ff0000", "layer": "A",
      "start": [0, 0], "end": [1, 1]}] *)
Definition red_line : SceneEntity :=
  {| se_id := "k1";
     se_type := "line";
     se_layer := "A";
     se_color := Some "#ff0000";
     se_visible := true;
     se_extra := list_to_map [("start", xy 0 0); ("end", xy 1 1)] |}.

Definition flatten_settings : DxfExportSettings :=
  {| version := AC1015; encoding := UTF8; layers := flatten_config |}.

(** A writer that refuses every primitive. *)
Definition writer_refuses : Modelspace -> primitive -> option exn :=
  λ _ _, Some (WriterError "refused").

(** What [_export_entity] returns once a builder has chosen to make the
    call [msp.add_*] for [drawing]: the primitive is drawn and the result is
    a success, unless the writer raises, in which case nothing is drawn and
    the result is a failure that carries the exception. *)
Definition drawn_or_refused (writer_raises : Modelspace -> primitive -> option exn)
    (msp : Modelspace) (entity : SceneEntity)
    (t : string) (drawing : primitive) : Modelspace * DxfEntityExportResult :=
  match writer_raises msp drawing with
  | None =>
      ({| dxfversion := dxfversion msp; drawn := drawn msp ++ [drawing] |},
       {| entity_id := se_id entity; success := true; dxf_type := Some t;
          warnings := []; error := None |})
  | Some e =>
      (msp,
       {| entity_id := se_id entity; success := false; dxf_type := Some t;
          warnings := []; error := Some (ErrOfExn e) |})
  end.

(** The height and the rotation a text is drawn with: the resolved number
    when it is not zero, otherwise the float 2.5 and the integer 0. *)
Definition height_or_default (h : option pyfloat) : pyfloat :=
  match h with
  | Some f => if float_truthy f then f else float_2_5
  | None => float_2_5
  end.

Definition rotation_or_default (r : option pyfloat) : attr :=
  match r with
  | Some f => if float_truthy f then AFloat f else AInt 0
  | None => AInt 0
  end.

(** What a call of a builder can do to the modelspace: nothing, or append
    one primitive that carries the layer of the attributes it was given. *)
Definition drew_nothing_or_one (msp msp' : Modelspace) (attribs : gmap string attr)
  : Prop :=
  msp' = msp
  ∨ ∃ p, msp' = {| dxfversion := dxfversion msp; drawn := drawn msp ++ [p] |}
         ∧ primitive_attribs p !! "layer" = attribs !! "layer".

(** The kinds the registry maps to a primitive kind. *)
Definition mapped_kinds : list string :=
  [ "line"; "polyline"; "lwpolyline"; "circle"; "arc"; "ellipse"; "text";
    "mtext"; "spline"; "rectangle"; "rect"; "point"; "dimension"; "block";
    "leader"; "hatch"; "xline"; "ray" ].

(** An alias of the bag that holds a boolean. *)
Definition holds_bool (data : gmap string value) (key : string) : Prop :=
  ∃ b, data !! key = Some (VBool b).

(** How many validation results are marked exportable. *)
Definition exportable_among (rs : list DxfEntityValidationResult) : Z :=
  Z.of_nat (length (filter (λ r, exportable r = true) rs)).

(* ========================================================================= *)
(** ** Layer creation ([_create_layers]) *)
(* ========================================================================= *)

(** An entry of the layer table of the document: its name, and the colour
    and the lock that the engine has set on it. *)
Record DxfLayer : Type := {
  dl_name : string;
  dl_color : option Z;
  dl_locked : bool
}.

(** [config.layer_mapping.get(layer.name, layer.name)]. *)
Definition mapped_layer_name (config : DxfLayerConfig) (layer : SceneLayer) : string :=
  default (sl_name layer) (layer_mapping config !! sl_name layer).

(** [config.flatten_to_layer or config.default_layer]. *)
Definition ensured_layer (config : DxfLayerConfig) : string :=
  if opt_str_truthy (flatten_to_layer config)
  then default "" (flatten_to_layer config)
  else default_layer config.

Section LayerCreation.

Variable str_upper : string -> string.

(** [Some e] when [doc.layers.add(name)] raises [e]; nothing is added then. *)
Variable layer_add_raises : list DxfLayer -> string -> option exn.

(** [Some e] when the assignment [dxf_layer.color = aci] raises [e]. *)
Variable layer_color_raises : Z -> option exn.

(** [name in doc.layers]. *)
Variable layer_in : list DxfLayer -> string -> bool.

(** The [try] block of the loop: an exception, whether of the addition or of
    the colour assignment after it, is logged and ends the block. *)
Definition add_scene_layer (table : list DxfLayer) (layer : SceneLayer)
    (layer_name : string) : list DxfLayer :=
  match layer_add_raises table layer_name with
  | Some _ => table
  | None =>
      if opt_str_truthy (sl_color layer)
      then
        let aci := _hex_to_aci str_upper (default "" (sl_color layer)) in
        match layer_color_raises aci with
        | Some _ =>
            table ++ [{| dl_name := layer_name; dl_color := None; dl_locked := false |}]
        | None =>
            table ++ [{| dl_name := layer_name; dl_color := Some aci;
                         dl_locked := sl_locked layer |}]
        end
      else
        table ++ [{| dl_name := layer_name; dl_color := None;
                     dl_locked := sl_locked layer |}]
  end.

(** One turn of the loop over [scene_layers]. *)
Definition create_layers_step (config : DxfLayerConfig)
    (table : list DxfLayer) (layer : SceneLayer) : list DxfLayer :=
  if visible_only config && negb (sl_visible layer) then table
  else if negb (include_locked config) && sl_locked layer then table
  else
    let layer_name := mapped_layer_name config layer in
    if opt_str_truthy (flatten_to_layer config) then table
    else add_scene_layer table layer layer_name.

Definition _create_layers (table : list DxfLayer) (scene_layers : list SceneLayer)
    (config : DxfLayerConfig) : result (list DxfLayer) :=
  let table := fold_left (create_layers_step config) scene_layers table in
  let target_layer := ensured_layer config in
  if layer_in table target_layer
  then Ok table
  else
    match layer_add_raises table target_layer with
    | Some e => Raise e
    | None =>
        Ok (table ++ [{| dl_name := target_layer; dl_color := None;
                         dl_locked := false |}])
    end.

End LayerCreation.

(** A layer table for running the samples: an addition raises on a name that
    is already there, the colour assignment never raises, and membership is
    by name. A new document holds the layers 0 and Defpoints. *)
Definition layer_add_refuses_known (table : list DxfLayer) (name : string)
  : option exn :=
  if bool_decide (name ∈ map dl_name table)
  then Some (WriterError "layer exists")
  else None.

Definition layer_add_accepts : list DxfLayer -> string -> option exn := λ _ _, None.

Definition layer_color_accepts : Z -> option exn := λ _, None.

Definition layer_in_by_name (table : list DxfLayer) (name : string) : bool :=
  bool_decide (name ∈ map dl_name table).

Definition new_layer_table : list DxfLayer :=
  [ {| dl_name := "0"; dl_color := None; dl_locked := false |};
    {| dl_name := "Defpoints"; dl_color := None; dl_locked := false |} ].

(** [[{"name": "Walls", "color": "#ff0000"}, {"name": "Hidden", "visible": false},
      {"name": "Frozen", "locked": true}, {"name": "A"}]] *)
Definition sample_layers : list SceneLayer :=
  [ {| sl_name := "Walls"; sl_color := Some "#ff0000"; sl_visible := true;
       sl_locked := false; sl_line_type := "CONTINUOUS" |};
    {| sl_name := "Hidden"; sl_color := None; sl_visible := false;
       sl_locked := false; sl_line_type := "CONTINUOUS" |};
    {| sl_name := "Frozen"; sl_color := None; sl_visible := true;
       sl_locked := true; sl_line_type := "CONTINUOUS" |};
    {| sl_name := "A"; sl_color := None; sl_visible := true;
       sl_locked := false; sl_line_type := "CONTINUOUS" |} ].

(** A scene layer that passes the two tests at the head of the loop. *)
Definition eligible_layer (config : DxfLayerConfig) (layer : SceneLayer) : Prop :=
  (visible_only config = true → sl_visible layer = true)
  ∧ (sl_locked layer = true → include_locked config = true).

#[global] Instance eligible_layer_dec config layer : Decision (eligible_layer config layer).
Proof. unfold eligible_layer. apply _. Defined.

(* ========================================================================= *)
(** ** Header variables ([_set_header_variables]) *)
(* ========================================================================= *)

Inductive DxfUnit : Type :=
| UNITLESS | INCHES | FEET | MILES | MILLIMETERS | CENTIMETERS | METERS | KILOMETERS.

(** The dictionary [UNIT_VALUES], by what a look-up finds. *)
Definition UNIT_VALUES (u : DxfUnit) : option Z :=
  match u with
  | UNITLESS => Some 0
  | INCHES => Some 1
  | FEET => Some 2
  | MILES => Some 3
  | MILLIMETERS => Some 4
  | CENTIMETERS => Some 5
  | METERS => Some 6
  | KILOMETERS => Some 7
  end.

(** A value of [header_variables]: [str | int | float]. *)
Inductive header_value : Type :=
| HStr (s : string)
| HInt (z : Z)
| HFloat (f : pyfloat).

(** The fields of [DxfExportSettings] that the header set-up reads; the
    custom variables are given by their items, in order. *)
Record DxfHeaderSettings : Type := {
  units : DxfUnit;
  include_metadata : bool;
  application_name : string;
  header_variables : list (string * header_value)
}.

(** How the writer can refuse [doc.header[key] = value]: with the
    [DXFValueError] that the loop catches, or with another exception. *)
Inductive header_refusal : Type :=
| DXFValueError
| OtherError (e : exn).

(** Whether an assignment was refused with [DXFValueError]. *)
Definition refused_as_value_error (o : option header_refusal) : bool :=
  match o with
  | Some DXFValueError => true
  | _ => false
  end.

Definition refusal_exn (r : header_refusal) : exn :=
  match r with
  | DXFValueError => WriterError "DXFValueError"
  | OtherError e => e
  end.

Section Header.

(** [Some r] when [doc.header[key] = value] raises; the header is then left
    as it was. *)
Variable header_refuses : string -> header_value -> option header_refusal.

(** An assignment outside every [try]. *)
Definition header_assign (header : gmap string header_value)
    (key : string) (value : header_value) : result (gmap string header_value) :=
  match header_refuses key value with
  | Some r => Raise (refusal_exn r)
  | None => Ok (<[key := value]> header)
  end.

(** One turn of the loop over the custom variables. *)
Definition custom_header_step (header : gmap string header_value)
    (item : string * header_value) : result (gmap string header_value) :=
  match header_refuses item.1 item.2 with
  | None => Ok (<[item.1 := item.2]> header)
  | Some DXFValueError => Ok header
  | Some (OtherError e) => Raise e
  end.

Fixpoint custom_header_loop (items : list (string * header_value))
    (header : gmap string header_value) : result (gmap string header_value) :=
  match items with
  | [] => Ok header
  | item :: items' =>
      header ← custom_header_step header item;
      custom_header_loop items' header
  end.

Definition _set_header_variables (header : gmap string header_value)
    (settings : DxfHeaderSettings) : result (gmap string header_value) :=
  header ← header_assign header "$INSUNITS" (HInt (default 4 (UNIT_VALUES (units settings))));
  header ← (if include_metadata settings
            then header_assign header "$LASTSAVEDBY" (HStr (application_name settings))
            else Ok header);
  custom_header_loop (header_variables settings) header.

End Header.

(** A writer that refuses with [DXFValueError] every variable whose name
    does not start with a dollar sign. *)
Definition header_refuses_undollared (key : string) (value : header_value)
  : option header_refusal :=
  match key with
  | String "$" _ => None
  | _ => Some DXFValueError
  end.

(** Millimetres, metadata on, and two custom variables: one that overrides
    the unit and one that the sample writer refuses. *)
Definition sample_header_settings : DxfHeaderSettings :=
  {| units := MILLIMETERS;
     include_metadata := true;
     application_name := "Nestor DXF Viewer";
     header_variables := [("$INSUNITS", HInt 6); ("bogus", HStr "x")] |}.

(* ========================================================================= *)
(** ** File name ([_generate_filename]) *)
(* ========================================================================= *)

(** [version.value]. *)
Definition DxfVersion_value (v : DxfVersion) : string :=
  match v with
  | AC1009 => "AC1009"
  | AC1015 => "AC1015"
  | AC1018 => "AC1018"
  | AC1021 => "AC1021"
  | AC1024 => "AC1024"
  | AC1027 => "AC1027"
  | AC1032 => "AC1032"
  end.

(** ["".join(parts)]. *)
Definition str_join (parts : list string) : string := foldr String.append "" parts.

(** [c in "-_"]: [c] is a substring of the two-character string. *)
Definition in_hyphen_underscore (c : string) : bool :=
  bool_decide (c ∈ [""; "-"; "_"; "-_"]).

Section Filename.

(** The characters of a [str], each as a [str] of length one, in order. *)
Variable str_chars : string -> list string.

(** Python's [c.isalnum()]. *)
Variable str_isalnum : string -> bool.

(** [c if c.isalnum() or c in "-_" else "_"]. *)
Definition safe_char (c : string) : string :=
  if str_isalnum c || in_hyphen_underscore c then c else "_".

Definition _generate_filename (scene : SceneModel) (settings : DxfExportSettings)
  : string :=
  let name := dict_get (metadata scene) "name" (VStr "export") in
  let safe_name :=
    match name with
    | VStr s => str_join (map safe_char (str_chars s))
    | _ => "export"
    end in
  let version_suffix := DxfVersion_value (version settings) in
  safe_name +:+ "_" +:+ version_suffix +:+ ".dxf".

End Filename.

(** A character that may stay in a file name. *)
Definition stays (str_isalnum : string -> bool) (c : string) : Prop :=
  str_isalnum c = true ∨ in_hyphen_underscore c = true.

(** The characters and [isalnum] of a string of ASCII characters. *)
Fixpoint ascii_chars (s : string) : list string :=
  match s with
  | EmptyString => []
  | String c s' => String c EmptyString :: ascii_chars s'
  end.

Definition ascii_isalnum_char (c : ascii) : bool :=
  let n := nat_of_ascii c in
  ((48 <=? n) && (n <=? 57) || (65 <=? n) && (n <=? 90)
   || (97 <=? n) && (n <=? 122))%nat.

Fixpoint all_alnum (s : string) : bool :=
  match s with
  | EmptyString => true
  | String c s' => ascii_isalnum_char c && all_alnum s'
  end.

Definition ascii_isalnum (s : string) : bool :=
  match s with
  | EmptyString => false
  | _ => all_alnum s
  end.

(** A scene whose only content is the name "My Drawing!". *)
Definition named_scene : SceneModel :=
  {| entities := []; scene_layers := [];
     metadata := {[ "name" := VStr "My Drawing!" ]} |}.

Definition clean_named_scene : SceneModel :=
  {| entities := []; scene_layers := [];
     metadata := {[ "name" := VStr "plan-A_2" ]} |}.

(* ========================================================================= *)
(** ** Application settings and the export endpoint ([settings.py],
       [api/export.py]) *)
(* ========================================================================= *)

(** The settings the endpoints read. *)
Record Settings : Type := {
  feature_flag_enabled : bool;
  max_entities_per_request : Z;
  default_dxf_version : string
}.

(** The constraint [Field(ge=100, le=100000)] on [max_entities_per_request]. *)
Definition max_entities_in_range (app : Settings) : Prop :=
  100 ≤ max_entities_per_request app ≤ 100000.

(** The [supported] set of [validate_dxf_version]. *)
Definition supported_versions : gset string :=
  list_to_set ["AC1009"; "AC1015"; "AC1018"; "AC1021"; "AC1024"; "AC1027"; "AC1032"].

Definition validate_dxf_version (v : string) : result string :=
  if bool_decide (v ∉ supported_versions) then Raise ValueError else Ok v.

Record DxfExportSceneRequest : Type := {
  rq_scene : SceneModel;
  rq_settings : DxfExportSettings;
  rq_entity_ids : option (list string);
  rq_layer_names : option (list string)
}.

(** What an endpoint answers: the body of a 200 reply, or the status and the
    code of the [HTTPException] it raises. *)
Inductive reply (A : Type) : Type :=
| Reply200 (body : A)
| HTTPException (status_code : Z) (code : string).
Arguments Reply200 {A} body.
Arguments HTTPException {A} status_code code.

(** The dependency of the export route. *)
Definition check_feature_flag (app : Settings) : option (Z * string) :=
  if negb (feature_flag_enabled app)
  then Some (503, "FEATURE_DISABLED")
  else None.

Module Api.
Section Endpoint.

Variable float_of_str : string -> option pyfloat.
Variable str_upper : string -> string.
Variable writer_raises : Modelspace -> primitive -> option exn.
Variable setup_raises : SceneModel -> DxfExportSettings -> option exn.
Variable serialize_raises : Modelspace -> DxfEncoding -> option exn.

(** The route [POST /export]: its dependency runs first; [except ValueError]
    catches the exception embedded as [ValueError], [except Exception] any
    other. The export time written into the stats is not part of the
    embedding. *)
Definition export_scene (app : Settings) (request : DxfExportSceneRequest)
  : reply DxfExportResponse :=
  match check_feature_flag app with
  | Some (status_code, code) => HTTPException status_code code
  | None =>
      let entity_count := Z.of_nat (length (entities (rq_scene request))) in
      if bool_decide (entity_count > max_entities_per_request app)
      then HTTPException 413 "ENTITY_LIMIT_EXCEEDED"
      else
        match export_scene float_of_str str_upper writer_raises
                setup_raises serialize_raises
                (rq_scene request) (rq_settings request)
                (rq_entity_ids request) (rq_layer_names request) with
        | Ok result => Reply200 result
        | Raise ValueError => HTTPException 400 "VALIDATION_ERROR"
        | Raise _ => HTTPException 500 "EXPORT_ERROR"
        end
  end.

End Endpoint.
End Api.

(** Settings as deployed by default, and with the export enabled. *)
Definition default_app_settings : Settings :=
  {| feature_flag_enabled := false;
     max_entities_per_request := 10000;
     default_dxf_version := "AC1015" |}.


Definition mixed_request : DxfExportSceneRequest :=
  {| rq_scene := mixed_scene; rq_settings := default_settings;
     rq_entity_ids := None; rq_layer_names := None |}.

(* ========================================================================= *)
(** ** Properties of the export pipeline *)
(* ========================================================================= *)

Section ExportFacts.

Variable float_of_str : string -> option pyfloat.
Variable str_upper : string -> string.
Variable writer_raises : Modelspace -> primitive -> option exn.
Variable setup_raises : SceneModel -> DxfExportSettings -> option exn.
Variable serialize_raises : Modelspace -> DxfEncoding -> option exn.

Local Abbreviation step := (export_step float_of_str str_upper writer_raises).
Local Abbreviation export := (export_scene float_of_str str_upper writer_raises
                            setup_raises serialize_raises).

(** A result moves exactly the counter of its category. *)
Lemma tally_spec r x s f :
  tally r (x, s, f) =
    (x + how_many is_exported [r],
     s + how_many is_skipped [r],
     f + how_many is_failed [r]).
Proof.
  unfold tally, how_many.
  destruct r as [i ok ty ws er]; simpl.
  destruct ok, ty; simpl; vm_compute length; f_equal; try f_equal; lia.
Qed.

Lemma how_many_app P `{∀ r, Decision (P r)} rs1 rs2 :
  how_many P (rs1 ++ rs2) = how_many P rs1 + how_many P rs2.
Proof. unfold how_many. rewrite filter_app, length_app. lia. Qed.

Lemma how_many_bounds P `{∀ r, Decision (P r)} rs :
  0 ≤ how_many P rs ≤ Z.of_nat (length rs).
Proof.
  unfold how_many. pose proof (length_filter P rs). lia.
Qed.

(** The three categories partition any list of results. *)
Lemma categories_partition rs :
  how_many is_exported rs + how_many is_skipped rs + how_many is_failed rs
  = Z.of_nat (length rs).
Proof.
  induction rs as [|r rs IH]; [reflexivity|].
  change (r :: rs) with ([r] ++ rs).
  rewrite !how_many_app, length_app, Nat2Z.inj_add, <- IH.
  assert (how_many is_exported [r] + how_many is_skipped [r]
          + how_many is_failed [r] = 1) as E.
  { destruct r as [i ok ty ws er]. destruct ok, ty; reflexivity. }
  simpl length. lia.
Qed.

Lemma _export_entity_id msp e settings :
  entity_id (_export_entity float_of_str str_upper writer_raises msp e settings).2
  = se_id e.
Proof.
  unfold _export_entity.
  destruct (ENTITY_TYPE_MAPPING_get (se_type e)) as [ty|]; [|reflexivity].
  destruct (r12_incompatible _ _); [reflexivity|].
  destruct (dispatch _ _ _) as [b|]; [|reflexivity].
  destruct (b _ _ _); reflexivity.
Qed.

Lemma export_step_results settings acc e :
  ea_entity_results (step settings acc e)
  = ea_entity_results acc
    ++ [(_export_entity float_of_str str_upper writer_raises
           (ea_msp acc) e settings).2].
Proof. unfold export_step. destruct (_export_entity _ _ _ _ _ _); reflexivity. Qed.

Lemma export_step_counts settings acc e :
  ea_counts (step settings acc e)
  = tally (_export_entity float_of_str str_upper writer_raises
             (ea_msp acc) e settings).2 (ea_counts acc).
Proof. unfold export_step. destruct (_export_entity _ _ _ _ _ _); reflexivity. Qed.

(** The loop of [export_scene]: one result per entity, in order, and the
    counters are the sizes of the three categories of the new results. *)
Lemma export_loop_spec settings ents acc :
  ∃ rs,
    ea_entity_results (fold_left (step settings) ents acc)
      = ea_entity_results acc ++ rs
    ∧ map entity_id rs = map se_id ents
    ∧ ea_counts (fold_left (step settings) ents acc)
      = ((ea_counts acc).1.1 + how_many is_exported rs,
         (ea_counts acc).1.2 + how_many is_skipped rs,
         (ea_counts acc).2 + how_many is_failed rs).
Proof.
  revert acc. induction ents as [|e ents IH]; intros acc; simpl.
  - exists []. rewrite app_nil_r. destruct (ea_counts acc) as [[x s] f]; simpl.
    unfold how_many; simpl. repeat split; f_equal; try f_equal; lia.
  - destruct (IH (step settings acc e)) as (rs & Hres & Hids & Hcnt).
    rewrite export_step_results in Hres. rewrite export_step_counts in Hcnt.
    pose proof (_export_entity_id (ea_msp acc) e settings) as Hr.
    set (r := (_export_entity float_of_str str_upper writer_raises
                 (ea_msp acc) e settings).2) in *.
    clearbody r.
    exists (r :: rs). rewrite Hres, Hcnt, <- app_assoc.
    split; [reflexivity|]. split.
    + rewrite !map_cons. f_equal; [exact Hr | exact Hids].
    + destruct (ea_counts acc) as [[x s] f].
      rewrite tally_spec. cbn [fst snd].
      change (r :: rs) with ([r] ++ rs). rewrite !how_many_app.
      f_equal; [f_equal|]; lia.
Qed.

Lemma filter_entities_length ents ids lns cfg :
  (length (_filter_entities ents ids lns cfg) ≤ length ents)%nat.
Proof.
  unfold _filter_entities.
  assert (∀ (b : bool) (P : SceneEntity → Prop) `{∀ e, Decision (P e)} l,
            (length (if b then filter P l else l) ≤ length l)%nat) as step1.
  { intros [] P ? l; [apply length_filter | lia]. }
  etransitivity; [apply step1|].
  etransitivity; [apply step1|].
  apply step1.
Qed.

(** What a returned response holds, in terms of the loop. *)
Lemma export_scene_returns scene settings ids lns resp :
  export scene settings ids lns = Ok resp →
  let filtered :=
    _filter_entities (entities scene) ids lns (layers settings) in
  map entity_id (entity_results resp) = map se_id filtered
  ∧ total_entities (stats resp) = Z.of_nat (length (entities scene))
  ∧ exported_entities (stats resp) = how_many is_exported (entity_results resp)
  ∧ skipped_entities (stats resp) = how_many is_skipped (entity_results resp)
  ∧ failed_entities (stats resp) = how_many is_failed (entity_results resp)
  ∧ status resp
    = determine_status (exported_entities (stats resp)) (failed_entities (stats resp)).
Proof.
  intros H filtered. unfold export_scene in H.
  destruct (setup_raises scene settings); [discriminate|].
  fold filtered in H.
  set (acc0 := {| ea_msp := _; ea_entity_results := []; ea_counts := (0, 0, 0);
                  ea_warnings := [] |}) in H.
  destruct (export_loop_spec settings filtered acc0) as (rs & Hres & Hids & Hcnt).
  destruct (ea_counts (fold_left (step settings) filtered acc0))
    as [[x s] f] eqn:Ec.
  destruct (serialize_raises _ _); [discriminate|].
  injection H as <-. cbn [entity_results stats status total_entities
    exported_entities skipped_entities failed_entities].
  rewrite Hres. cbn [acc0 ea_entity_results app].
  cbn [acc0 ea_counts fst snd] in Hcnt. injection Hcnt as -> -> ->.
  repeat split; try (exact Hids); lia.
Qed.

(** C2. The overall status of a returned response is a function of the
    failed and exported counts alone: ERROR when failed > 0 and
    exported = 0, PARTIAL when failed > 0 and exported > 0, SUCCESS
    otherwise. The two counts are those of the per-entity results, and with
    no failed entity the status is SUCCESS whatever was skipped. *)
Theorem C2_status_from_counts scene settings ids lns resp :
  export scene settings ids lns = Ok resp →
  let exported := exported_entities (stats resp) in
  let failed := failed_entities (stats resp) in
  status resp
    = (if bool_decide (failed > 0 ∧ exported = 0) then ERROR
       else if bool_decide (failed > 0 ∧ exported > 0) then PARTIAL
       else SUCCESS)
  ∧ exported = how_many is_exported (entity_results resp)
  ∧ failed = how_many is_failed (entity_results resp)
  ∧ (failed = 0 → status resp = SUCCESS).
Proof.
  intros H exported failed.
  destruct (export_scene_returns _ _ _ _ _ H) as (_ & _ & Hx & _ & Hf & Hst).
  fold exported in Hx, Hst. fold failed in Hf, Hst.
  pose proof (how_many_bounds is_exported (entity_results resp)) as Bx.
  rewrite <- Hx in Bx.
  repeat split; try assumption.
  - rewrite Hst. unfold determine_status.
    repeat case_bool_decide; try reflexivity; lia.
  - intros F0. rewrite Hst. unfold determine_status.
    case_bool_decide; [lia | reflexivity].
Qed.

(** C9. In a returned response, exported + skipped + failed equals the
    number of filtered entities, which is at most the total (the number of
    entities of the scene before filtering): every filtered entity has one
    result, in order, and the three counters are the sizes of the three
    disjoint categories of results. *)
Theorem C9_counts_partition_filtered scene settings ids lns resp :
  export scene settings ids lns = Ok resp →
  let filtered :=
    _filter_entities (entities scene) ids lns (layers settings) in
  let exported := exported_entities (stats resp) in
  let skipped := skipped_entities (stats resp) in
  let failed := failed_entities (stats resp) in
  exported + skipped + failed = Z.of_nat (length filtered)
  ∧ exported + skipped + failed ≤ total_entities (stats resp)
  ∧ total_entities (stats resp) = Z.of_nat (length (entities scene))
  ∧ map entity_id (entity_results resp) = map se_id filtered
  ∧ exported = how_many is_exported (entity_results resp)
  ∧ skipped = how_many is_skipped (entity_results resp)
  ∧ failed = how_many is_failed (entity_results resp).
Proof.
  intros H filtered exported skipped failed.
  destruct (export_scene_returns _ _ _ _ _ H) as (Hids & Ht & Hx & Hs & Hf & _).
  fold filtered in Hids. fold exported in Hx. fold skipped in Hs. fold failed in Hf.
  pose proof (categories_partition (entity_results resp)) as Hp.
  rewrite <- Hx, <- Hs, <- Hf in Hp.
  assert (length (entity_results resp) = length filtered) as Hlen.
  { rewrite <- (length_map entity_id), Hids. apply length_map. }
  pose proof (filter_entities_length (entities scene) ids lns (layers settings)) as Hle.
  fold filtered in Hle.
  repeat split; try assumption; lia.
Qed.

End ExportFacts.

Lemma C2_status_from_counts_witness :
  export_scene float_refuses_str ascii_upper writer_accepts setup_succeeds
    serialize_succeeds mixed_scene default_settings None None = Ok mixed_response
  ∧ status mixed_response = PARTIAL.
Proof.
  assert (export_scene float_refuses_str ascii_upper writer_accepts setup_succeeds
            serialize_succeeds mixed_scene default_settings None None
          = Ok mixed_response) as H by (vm_compute; reflexivity).
  split; [exact H|].
  exact (proj1 (C2_status_from_counts _ _ _ _ _ _ _ _ _ _ H)).
Defined.

Lemma C9_counts_partition_filtered_witness :
  export_scene float_refuses_str ascii_upper writer_accepts setup_succeeds
    serialize_succeeds mixed_scene default_settings (Some ["l1"; "m1"; "s1"]) None
  = Ok ids_response
  ∧ exported_entities (stats ids_response) + skipped_entities (stats ids_response)
    + failed_entities (stats ids_response) ≤ total_entities (stats ids_response).
Proof.
  assert (export_scene float_refuses_str ascii_upper writer_accepts setup_succeeds
            serialize_succeeds mixed_scene default_settings
            (Some ["l1"; "m1"; "s1"]) None
          = Ok ids_response) as H by (vm_compute; reflexivity).
  split; [exact H|].
  exact (proj1 (proj2 (C9_counts_partition_filtered _ _ _ _ _ _ _ _ _ _ H))).
Defined.

(* ========================================================================= *)
(** ** Properties of validation and of the version check *)
(* ========================================================================= *)

Lemma registry_get_None kind :
  ENTITY_TYPE_MAPPING_get kind = None
  ↔ ENTITY_TYPE_MAPPING !! kind = None ∨ ENTITY_TYPE_MAPPING !! kind = Some None.
Proof.
  unfold ENTITY_TYPE_MAPPING_get.
  destruct (ENTITY_TYPE_MAPPING !! kind) as [[t|]|]; split; intros H;
    try destruct H as [H|H]; try discriminate; auto.
Qed.

Lemma r12_incompatible_true v t :
  r12_incompatible v t = true
  ↔ v = AC1009 ∧ t ∉ ["LINE"; "POLYLINE"; "CIRCLE"; "ARC"; "TEXT"; "POINT"].
Proof.
  unfold r12_incompatible, R12_SUPPORTED_TYPES.
  rewrite andb_true_iff, !bool_decide_eq_true, elem_of_list_to_set.
  reflexivity.
Qed.

Lemma r12_incompatible_other_version v t :
  v ≠ AC1009 → r12_incompatible v t = false.
Proof.
  intros Hv. unfold r12_incompatible.
  rewrite (bool_decide_eq_false_2 _ Hv). reflexivity.
Qed.

Lemma count_issue_fold l e w i :
  fold_left count_issue l (e, w, i)
  = (e + errors_among l, w + warnings_among l, i + infos_among l).
Proof.
  revert e w i. induction l as [|x l IH]; intros e w i.
  - unfold errors_among, warnings_among, infos_among. simpl.
    f_equal; [f_equal|]; lia.
  - cbn [fold_left]. unfold count_issue at 2.
    unfold errors_among, warnings_among, infos_among in *.
    rewrite !filter_cons.
    destruct (severity x); rewrite IH;
      repeat (case_decide; try congruence); cbn [length];
      repeat match goal with |- (_, _) = (_, _) => f_equal end; lia.
Qed.

Lemma errors_among_app l1 l2 :
  errors_among (l1 ++ l2) = errors_among l1 + errors_among l2.
Proof. unfold errors_among. rewrite filter_app, length_app. lia. Qed.

Lemma errors_among_none l :
  Forall (λ i, severity i ≠ SevERROR) l → errors_among l = 0.
Proof.
  unfold errors_among. induction 1 as [|i l Hi Hl IH]; [reflexivity|].
  rewrite filter_cons. case_decide; [contradiction|exact IH].
Qed.

(** The loop of [validate_scene]: one result per entity, in order, and the
    error counter is the number of ERROR issues met so far. *)
Lemma validate_loop_spec v ents acc :
  va_entity_results (fold_left (validate_step v) ents acc)
  = va_entity_results acc ++ map (λ e, _validate_entity e v) ents
  ∧ va_error_count (fold_left (validate_step v) ents acc)
    = va_error_count acc
      + errors_among (all_issues (map (λ e, _validate_entity e v) ents)).
Proof.
  revert acc. induction ents as [|e ents IH]; intros acc.
  - cbn. rewrite app_nil_r. split; [reflexivity|]. unfold errors_among; cbn. lia.
  - cbn [fold_left map]. destruct (IH (validate_step v acc e)) as [-> ->].
    unfold validate_step. rewrite count_issue_fold.
    cbn [va_entity_results va_error_count].
    rewrite <- app_assoc. split; [reflexivity|].
    change (_validate_entity e v :: ?l) with ([_validate_entity e v] ++ l).
    unfold all_issues at 2. rewrite map_app, concat_app.
    rewrite errors_among_app. cbn [map concat]. rewrite app_nil_r.
    fold (all_issues (map (λ e0, _validate_entity e0 v) ents)). lia.
Qed.

(** C8. Validation gives one result per entity, in scene order. An entity
    whose kind is unknown to the registry, or mapped to none, is not
    exportable and carries exactly one issue, a WARNING of code
    NOT_EXPORTABLE. The number of errors reported is the number of ERROR
    issues over all results, and the scene is valid exactly when that number
    is zero; in particular a run whose issues are all warnings or infos is
    valid. *)
Theorem C8_validation_aggregate scene v :
  let resp := validate_scene scene v in
  v_entity_results resp = map (λ e, _validate_entity e v) (entities scene)
  ∧ (∀ e,
       ENTITY_TYPE_MAPPING !! se_type e = None
       ∨ ENTITY_TYPE_MAPPING !! se_type e = Some None →
       exportable (_validate_entity e v) = false
       ∧ ∃ i, issues (_validate_entity e v) = [i]
              ∧ severity i = SevWARNING ∧ code i = "NOT_EXPORTABLE")
  ∧ errors (issue_summary resp) = errors_among (all_issues (v_entity_results resp))
  ∧ (valid resp = true ↔ errors_among (all_issues (v_entity_results resp)) = 0)
  ∧ (Forall (λ i, severity i ≠ SevERROR) (all_issues (v_entity_results resp)) →
     valid resp = true).
Proof.
  intros resp.
  destruct (validate_loop_spec v (entities scene)
              {| va_entity_results := []; va_exportable_count := 0;
                 va_error_count := 0; va_warning_count := 0;
                 va_info_count := 0 |}) as [Hres Herr].
  cbn [va_entity_results va_error_count app] in Hres, Herr.
  assert (v_entity_results resp
          = map (λ e, _validate_entity e v) (entities scene)) as R by exact Hres.
  assert (errors (issue_summary resp)
          = errors_among (all_issues (v_entity_results resp))) as E.
  { rewrite R. unfold resp, validate_scene. cbn [issue_summary errors].
    rewrite Herr. lia. }
  assert (valid resp = true
          ↔ errors_among (all_issues (v_entity_results resp)) = 0) as V.
  { rewrite <- E. unfold resp, validate_scene. cbn [valid issue_summary errors].
    apply bool_decide_eq_true. }
  split; [exact R|]. split; [|split; [exact E|split; [exact V|]]].
  - intros e He. apply registry_get_None in He.
    unfold _validate_entity. rewrite He. cbn [exportable issues app].
    split; [reflexivity|]. eexists. split; [reflexivity|]. split; reflexivity.
  - intros Hall. apply V, errors_among_none, Hall.
Qed.

Lemma C8_validation_aggregate_witness :
  exportable (_validate_entity measurement_entity AC1015) = false
  ∧ valid (validate_scene (mk_scene [measurement_entity]) AC1015) = true.
Proof.
  pose proof (C8_validation_aggregate (mk_scene [measurement_entity]) AC1015)
    as (_ & Hunknown & _ & _ & Hvalid).
  split.
  - apply (Hunknown measurement_entity). right. vm_compute. reflexivity.
  - apply Hvalid. vm_compute. repeat constructor; discriminate.
Defined.

Section VersionCheck.

Variable float_of_str : string -> option pyfloat.
Variable str_upper : string -> string.
Variable writer_raises : Modelspace -> primitive -> option exn.

(** C3. For an entity whose kind the registry maps to a primitive kind,
    the version check denies exactly under AC1009 (R12) for a primitive
    kind outside LINE, POLYLINE, CIRCLE, ARC, TEXT, POINT. When it denies,
    export draws nothing and returns a result that is not a success, keeps
    the primitive kind and carries an error, so the loop counts it as
    failed; validation returns a non-exportable result with exactly one
    issue, an ERROR of code VERSION_INCOMPATIBLE. Under every other
    version the check denies nothing and validation finds the entity
    exportable with no issue. Both callers refuse in no other case: export
    returns the R12 refusal, and its R12 warning, exactly under AC1009 for
    a kind outside the six, and otherwise keeps the primitive kind and
    either succeeds, finds no builder for the kind, or reports the
    exception of the builder; validation finds the entity not exportable
    exactly under AC1009 for a kind outside the six, and raises no issue
    otherwise. *)
Theorem C3_version_check msp entity settings v t :
  ENTITY_TYPE_MAPPING_get (se_type entity) = Some t →
  (r12_incompatible v t = true
   ↔ v = AC1009 ∧ t ∉ ["LINE"; "POLYLINE"; "CIRCLE"; "ARC"; "TEXT"; "POINT"])
  ∧ (r12_incompatible (version settings) t = true →
     let out := _export_entity float_of_str str_upper writer_raises
                  msp entity settings in
     out.1 = msp
     ∧ entity_id out.2 = se_id entity
     ∧ success out.2 = false
     ∧ dxf_type out.2 = Some t
     ∧ error out.2 = Some (ErrMsg "R12 version does not support this entity type")
     ∧ ∀ x s f, tally out.2 (x, s, f) = (x, s, f + 1))
  ∧ (r12_incompatible v t = true →
     exportable (_validate_entity entity v) = false
     ∧ ∃ i, issues (_validate_entity entity v) = [i]
            ∧ severity i = SevERROR ∧ code i = "VERSION_INCOMPATIBLE")
  ∧ (v ≠ AC1009 →
     r12_incompatible v t = false
     ∧ exportable (_validate_entity entity v) = true
     ∧ issues (_validate_entity entity v) = [])
  ∧ (let out := _export_entity float_of_str str_upper writer_raises
                  msp entity settings in
     let denied :=
       version settings = AC1009
       ∧ t ∉ ["LINE"; "POLYLINE"; "CIRCLE"; "ARC"; "TEXT"; "POINT"] in
     (out = (msp,
             {| entity_id := se_id entity;
                success := false;
                dxf_type := Some t;
                warnings := ["Entity type '" +:+ t +:+ "' not supported in R12"];
                error := Some (ErrMsg "R12 version does not support this entity type") |})
      ↔ denied)
     ∧ (warnings out.2 = ["Entity type '" +:+ t +:+ "' not supported in R12"]
        ↔ denied)
     ∧ (¬ denied →
        entity_id out.2 = se_id entity
        ∧ dxf_type out.2 = Some t
        ∧ (success out.2 = true ∧ error out.2 = None ∧ warnings out.2 = []
           ∨ success out.2 = false ∧ out.1 = msp
             ∧ (dispatch float_of_str writer_raises t = None
                ∧ error out.2 = Some (ErrMsg "Entity type export not implemented")
                ∨ ∃ builder e,
                    dispatch float_of_str writer_raises t = Some builder
                    ∧ builder msp entity (common_attribs str_upper entity settings) = Raise e
                    ∧ error out.2 = Some (ErrOfExn e)
                    ∧ warnings out.2 = []))))
  ∧ (exportable (_validate_entity entity v) = false
     ↔ v = AC1009 ∧ t ∉ ["LINE"; "POLYLINE"; "CIRCLE"; "ARC"; "TEXT"; "POINT"])
  ∧ (issues (_validate_entity entity v) = []
     ↔ ¬ (v = AC1009 ∧ t ∉ ["LINE"; "POLYLINE"; "CIRCLE"; "ARC"; "TEXT"; "POINT"])).
Proof.
  intros Ht.
  split; [apply r12_incompatible_true|]. split; [|split; [|split; [|split; [|split]]]].
  - intros Hd out. unfold out, _export_entity. rewrite Ht, Hd.
    cbn [fst snd entity_id success dxf_type error].
    repeat split.
  - intros Hd. unfold _validate_entity. rewrite Ht, Hd.
    cbn [exportable issues app]. split; [reflexivity|].
    eexists. split; [reflexivity|]. split; reflexivity.
  - intros Hv. pose proof (r12_incompatible_other_version v t Hv) as Hd.
    unfold _validate_entity. rewrite Ht, Hd. repeat split.
  - intros out denied. unfold denied.
    rewrite <- (r12_incompatible_true (version settings) t).
    unfold out, _export_entity. rewrite Ht.
    destruct (r12_incompatible (version settings) t) eqn:Hd.
    + split; [split; [reflexivity|intros _; reflexivity]|].
      split; [split; [reflexivity|intros _; reflexivity]|].
      intros Hn. exfalso. apply Hn. reflexivity.
    + destruct (dispatch float_of_str writer_raises t) as [builder|] eqn:Hb.
      * destruct (builder msp entity (common_attribs str_upper entity settings)) as [msp'|e] eqn:Hr.
        -- cbn [fst snd entity_id success dxf_type error warnings].
           split; [split; [intros H; discriminate H|intros H; discriminate H]|].
           split; [split; [intros H; discriminate H|intros H; discriminate H]|].
           intros _. split; [reflexivity|]. split; [reflexivity|].
           left. repeat split.
        -- cbn [fst snd entity_id success dxf_type error warnings].
           split; [split; [intros H; discriminate H|intros H; discriminate H]|].
           split; [split; [intros H; discriminate H|intros H; discriminate H]|].
           intros _. split; [reflexivity|]. split; [reflexivity|].
           right. split; [reflexivity|]. split; [reflexivity|].
           right. exists builder, e.
           split; [reflexivity|]. split; [exact Hr|]. split; reflexivity.
      * cbn [fst snd entity_id success dxf_type error warnings app].
        split; [split; [intros H; cbn in H; discriminate H|intros H; discriminate H]|].
        split; [split; [intros H; cbn in H; discriminate H|intros H; discriminate H]|].
        intros _. split; [reflexivity|]. split; [reflexivity|].
        right. split; [reflexivity|]. split; [reflexivity|].
        left. split; reflexivity.
  - rewrite <- (r12_incompatible_true v t).
    unfold _validate_entity. rewrite Ht.
    destruct (r12_incompatible v t); cbn [exportable];
      split; intros H; first [reflexivity | discriminate H].
  - rewrite <- (r12_incompatible_true v t).
    unfold _validate_entity. rewrite Ht.
    destruct (r12_incompatible v t); cbn [issues app];
      split; intros H; first [reflexivity | discriminate H
                             | exfalso; apply H; reflexivity
                             | intros H'; discriminate H'].
Qed.

End VersionCheck.

Lemma C3_version_check_witness :
  ENTITY_TYPE_MAPPING_get (se_type spline_entity) = Some "SPLINE"
  ∧ r12_incompatible AC1009 "SPLINE" = true
  ∧ success (_export_entity float_refuses_str ascii_upper writer_accepts
               (empty_modelspace AC1009) spline_entity r12_settings).2 = false
  ∧ exportable (_validate_entity spline_entity AC1009) = false
  ∧ exportable (_validate_entity spline_entity AC1015) = true.
Proof.
  assert (ENTITY_TYPE_MAPPING_get (se_type spline_entity) = Some "SPLINE") as Ht
    by (vm_compute; reflexivity).
  assert (r12_incompatible AC1009 "SPLINE" = true) as Hd
    by (vm_compute; reflexivity).
  pose proof (C3_version_check float_refuses_str ascii_upper writer_accepts
                (empty_modelspace AC1009) spline_entity r12_settings AC1009
                "SPLINE" Ht) as (_ & Hexp & Hval & _).
  pose proof (C3_version_check float_refuses_str ascii_upper writer_accepts
                (empty_modelspace AC1009) spline_entity r12_settings AC1015
                "SPLINE" Ht) as (_ & _ & _ & Hother & _).
  split; [exact Ht|]. split; [exact Hd|]. split; [|split].
  - apply (Hexp Hd).
  - apply (Hval Hd).
  - apply Hother. discriminate.
Defined.

(* ========================================================================= *)
(** ** Properties of layer routing and of the entity filter *)
(* ========================================================================= *)

Lemma str_truthy_true s : str_truthy s = true ↔ s ≠ "".
Proof. destruct s; cbn; split; intros H; congruence. Qed.

(** The claim C6 as worded fails when the mapping sends a layer to the empty
    name: the code falls back to the default layer. *)
Lemma C6_empty_mapped_name_counterexample :
  _get_target_layer "A" empty_mapping_config = "0"
  ∧ specified_target_layer "A" empty_mapping_config = "".
Proof. split; vm_compute; reflexivity. Qed.

(** C6, amended. A non-empty flatten target is returned unconditionally; an
    empty one counts as not configured. Otherwise the candidate is the mapped
    name when the layer is a key of the mapping and the declared name when it
    is not, and the result is the candidate, or the default layer when the
    candidate is empty. The result is the specified one whenever neither the
    flatten target nor the mapped name is empty. *)
Theorem C6_target_layer entity_layer config :
  (∀ target, flatten_to_layer config = Some target → target ≠ "" →
     _get_target_layer entity_layer config = target)
  ∧ (flatten_to_layer config = None ∨ flatten_to_layer config = Some "" →
     (∀ mapped, layer_mapping config !! entity_layer = Some mapped →
        _get_target_layer entity_layer config
        = if decide (mapped = "") then default_layer config else mapped)
     ∧ (layer_mapping config !! entity_layer = None →
        _get_target_layer entity_layer config
        = if decide (entity_layer = "") then default_layer config else entity_layer))
  ∧ (flatten_to_layer config ≠ Some "" →
     layer_mapping config !! entity_layer ≠ Some "" →
     _get_target_layer entity_layer config
     = specified_target_layer entity_layer config).
Proof.
  assert (∀ s, (if str_truthy s then s else default_layer config)
               = if decide (s = "") then default_layer config else s) as T.
  { intros s. destruct s; reflexivity. }
  unfold _get_target_layer, specified_target_layer.
  split; [|split].
  - intros target -> Hne. cbn. apply str_truthy_true in Hne. rewrite Hne. reflexivity.
  - intros Hf.
    assert (opt_str_truthy (flatten_to_layer config) = false) as ->
      by (destruct Hf as [-> | ->]; reflexivity).
    split.
    + intros mapped ->. cbn. apply T.
    + intros ->. cbn. apply T.
  - intros Hf Hm. destruct (flatten_to_layer config) as [target|]; cbn.
    + destruct target; [congruence|reflexivity].
    + destruct (layer_mapping config !! entity_layer) as [mapped|]; cbn.
      * destruct mapped; [congruence|reflexivity].
      * apply T.
Qed.

Lemma C6_target_layer_witness :
  _get_target_layer "A" flatten_config = "OUT"
  ∧ _get_target_layer "A" empty_mapping_config
    = default_layer empty_mapping_config.
Proof.
  pose proof (C6_target_layer "A" flatten_config) as (Hflat & _ & _).
  pose proof (C6_target_layer "A" empty_mapping_config) as (_ & Hmap & _).
  split.
  - apply Hflat; [reflexivity | discriminate].
  - apply (proj1 (Hmap (or_introl eq_refl)) ""). vm_compute. reflexivity.
Defined.

Lemma filter_stage (b : bool) (P : SceneEntity → Prop) `{∀ e, Decision (P e)}
    (l : list SceneEntity) :
  (if b then filter P l else l) = filter (λ e, b = true → P e) l.
Proof.
  destruct b.
  - apply list_filter_iff. intros e. split; auto.
  - induction l as [|e l IH]; [reflexivity|].
    rewrite filter_cons_True by (intros ?; discriminate).
    f_equal. exact IH.
Qed.

(** The three stages amount to one stable filter. *)
Lemma filter_entities_kept ents ids lns cfg :
  _filter_entities ents ids lns cfg = filter (kept_by ids lns cfg) ents.
Proof.
  unfold _filter_entities. cbv zeta.
  rewrite (filter_stage (visible_only cfg)), (filter_stage (opt_list_truthy lns)),
    (filter_stage (opt_list_truthy ids)), !list_filter_filter.
  apply list_filter_iff. intros e. unfold kept_by.
  rewrite !elem_of_list_to_set. tauto.
Qed.

(** The claim C7 as worded fails on the empty id list: the code then keeps
    every entity. *)
Lemma C7_empty_id_list_counterexample :
  _filter_entities [line_full] (Some []) None default_layer_config = [line_full]
  ∧ specified_id_filter [line_full] [] = [].
Proof. split; vm_compute; reflexivity. Qed.

(** C7, amended. The entities considered for export are the scene entities
    that pass the three stages, in scene order (a sublist of the scene). For
    a non-empty [entity_ids] list the first stage keeps exactly the entities
    whose id is in the list, so that with no layer filter and no visibility
    filter the outcome is the specified id filter, and in general every
    entity kept has its id in the list. An empty [entity_ids] list filters
    nothing, like an absent one; the same holds of [layer_names]. *)
Theorem C7_filter_entities ents ids lns cfg :
  _filter_entities ents ids lns cfg = filter (kept_by ids lns cfg) ents
  ∧ _filter_entities ents ids lns cfg `sublist_of` ents
  ∧ (∀ l, ids = Some l → l ≠ [] →
       (∀ e, e ∈ _filter_entities ents ids lns cfg → se_id e ∈ l)
       ∧ _filter_entities ents ids lns cfg
         = _filter_entities (specified_id_filter ents l) None lns cfg
       ∧ (opt_list_truthy lns = false → visible_only cfg = false →
          _filter_entities ents ids lns cfg = specified_id_filter ents l))
  ∧ _filter_entities ents (Some []) lns cfg = _filter_entities ents None lns cfg
  ∧ _filter_entities ents ids (Some []) cfg = _filter_entities ents ids None cfg.
Proof.
  split; [apply filter_entities_kept|].
  split; [rewrite filter_entities_kept; apply sublist_filter|].
  split; [|split; reflexivity].
  intros l -> Hl.
  assert (opt_list_truthy (Some l) = true) as Ht by (destruct l; [congruence | reflexivity]).
  split; [|split].
  - intros e. rewrite filter_entities_kept, list_elem_of_filter.
    intros [(Hid & _) _]. exact (Hid Ht).
  - unfold specified_id_filter. rewrite !filter_entities_kept, list_filter_filter.
    apply list_filter_iff. intros e. unfold kept_by. rewrite Ht. cbn.
    intuition (try discriminate; auto).
  - intros Hlns Hvis. rewrite filter_entities_kept. unfold specified_id_filter.
    apply list_filter_iff. intros e. unfold kept_by.
    rewrite Ht, Hlns, Hvis. cbn. split; [intros (H & _); auto|intros H].
    repeat split; auto; discriminate.
Qed.

Lemma C7_filter_entities_witness :
  _filter_entities (entities mixed_scene) (Some ["s1"; "l1"]) None default_layer_config
  = _filter_entities (specified_id_filter (entities mixed_scene) ["s1"; "l1"])
      None None default_layer_config.
Proof.
  pose proof (C7_filter_entities (entities mixed_scene) (Some ["s1"; "l1"]) None
                default_layer_config) as (_ & _ & H & _).
  assert (["s1"; "l1"] ≠ ([] : list string)) as Hne by discriminate.
  exact (proj1 (proj2 (H ["s1"; "l1"] eq_refl Hne))).
Defined.

(* ========================================================================= *)
(** ** Properties of the per-entity converter *)
(* ========================================================================= *)

Section ConverterFacts.

Variable float_of_str : string -> option pyfloat.
Variable str_upper : string -> string.
Variable writer_raises : Modelspace -> primitive -> option exn.

Local Abbreviation export_entity :=
  (_export_entity float_of_str str_upper writer_raises).

(** [_export_entity] past its two guards: the builder decides. *)
Lemma export_entity_dispatched msp entity settings t builder :
  ENTITY_TYPE_MAPPING_get (se_type entity) = Some t →
  r12_incompatible (version settings) t = false →
  dispatch float_of_str writer_raises t = Some builder →
  export_entity msp entity settings
  = match builder msp entity (common_attribs str_upper entity settings) with
    | Ok msp' =>
        (msp',
         {| entity_id := se_id entity; success := true; dxf_type := Some t;
            warnings := []; error := None |})
    | Raise e =>
        (msp,
         {| entity_id := se_id entity; success := false; dxf_type := Some t;
            warnings := []; error := Some (ErrOfExn e) |})
    end.
Proof.
  intros Ht Hc Hd. unfold _export_entity. rewrite Ht, Hc, Hd. reflexivity.
Qed.

Lemma r12_supported_compatible v t :
  t ∈ ["LINE"; "POLYLINE"; "CIRCLE"; "ARC"; "TEXT"; "POINT"] →
  r12_incompatible v t = false.
Proof.
  intros Hin. destruct (r12_incompatible v t) eqn:E; [|reflexivity].
  apply r12_incompatible_true in E. destruct E as [_ E]. contradiction.
Qed.

(** A circle with no radius at all adds nothing either. *)
Lemma circle_absent_radius msp entity attribs c :
_get_point float_of_str entity ["center"; "centerPoint"] = Ok (Some c) →
_get_float float_of_str entity ["radius"; "r"] = Ok None →
_export_circle float_of_str writer_raises msp entity attribs = Ok msp.
Proof. intros Hc Hr. unfold _export_circle. rewrite Hc, Hr. reflexivity. Qed.

(** C10. A circle whose centre resolves and whose radius resolves to zero
    (0.0 or -0.0) adds nothing to the modelspace, and yet its result is a
    success of kind CIRCLE with no error, which the loop counts as
    exported: the radius is tested for truthiness, so that zero does what
    an absent radius does. *)
Theorem C10_zero_radius_circle msp entity settings c sign :
  se_type entity = "circle" →
  _get_point float_of_str entity ["center"; "centerPoint"] = Ok (Some c) →
  _get_float float_of_str entity ["radius"; "r"] = Ok (Some (S754_zero sign)) →
  export_entity msp entity settings
  = (msp,
     {| entity_id := se_id entity; success := true; dxf_type := Some "CIRCLE";
        warnings := []; error := None |})
  ∧ (∀ x s f, tally (export_entity msp entity settings).2 (x, s, f) = (x + 1, s, f))
  ∧ _export_circle float_of_str writer_raises msp entity
      (common_attribs str_upper entity settings) = Ok msp.
Proof.
  intros Hty Hc Hr.
  assert (_export_circle float_of_str writer_raises msp entity
            (common_attribs str_upper entity settings) = Ok msp) as Hb.
  { unfold _export_circle. rewrite Hc, Hr. reflexivity. }
  assert (export_entity msp entity settings
          = (msp,
             {| entity_id := se_id entity; success := true;
                dxf_type := Some "CIRCLE"; warnings := []; error := None |})) as He.
  { rewrite (export_entity_dispatched msp entity settings "CIRCLE"
               (_export_circle float_of_str writer_raises)).
    - rewrite Hb. reflexivity.
    - rewrite Hty. vm_compute. reflexivity.
    - apply r12_supported_compatible. rewrite !elem_of_cons. tauto.
    - reflexivity. }
  split; [exact He|]. split; [|exact Hb].
  intros x s f. rewrite He. reflexivity.
Qed.

(** C5, amended. An entity of kind lwpolyline, rectangle or rect (the
    kinds the registry maps to LWPOLYLINE), under a version other than
    AC1009, with at least two resolvable points, has one polyline primitive
    added to the modelspace and a successful result, provided the writer
    accepts the primitive. The primitive is closed for rectangle and rect
    whatever the entity says, and as the entity's boolean [closed] or
    [isClosed] field says (false when there is none) for lwpolyline. *)
Theorem C5_lwpolyline_emitted msp entity settings pts :
  se_type entity ∈ ["lwpolyline"; "rectangle"; "rect"] →
  version settings ≠ AC1009 →
  _get_points float_of_str entity ["points"; "vertices"; "polygon"] = Ok (Some pts) →
  (2 ≤ length pts)%nat →
  let closed :=
    if decide (se_type entity = "lwpolyline")
    then _get_bool entity ["closed"; "isClosed"]
    else true in
  let drawing :=
    LwPolyline pts closed (common_attribs str_upper entity settings) in
  writer_raises msp drawing = None →
  export_entity msp entity settings
  = ({| dxfversion := dxfversion msp; drawn := drawn msp ++ [drawing] |},
     {| entity_id := se_id entity; success := true;
        dxf_type := Some "LWPOLYLINE"; warnings := []; error := None |}).
Proof.
  intros Hty Hv Hpts Hlen closed drawing Hw.
  rewrite !elem_of_cons, elem_of_nil in Hty.
  rewrite (export_entity_dispatched msp entity settings "LWPOLYLINE"
             (_export_lwpolyline float_of_str writer_raises)).
  - unfold _export_lwpolyline. rewrite Hpts. cbn [mbind result_bind].
    rewrite (bool_decide_eq_true_2 _ Hlen).
    assert ((if bool_decide (se_type entity ∈ ["rectangle"; "rect"])
             then true else _get_bool entity ["closed"; "isClosed"]) = closed) as ->.
    { unfold closed. case_decide as Hk.
      - rewrite Hk. reflexivity.
      - rewrite bool_decide_eq_true_2; [reflexivity|].
        rewrite !elem_of_cons. tauto. }
    fold drawing. unfold msp_add. rewrite Hw. reflexivity.
  - destruct Hty as [-> | [-> | [-> | []]]]; vm_compute; reflexivity.
  - apply r12_incompatible_other_version, Hv.
  - reflexivity.
Qed.

(** C1 at its failing input: a line with no geometry, under any settings
    and any environment, adds nothing to the modelspace and is reported as
    a success with no error, which the loop counts as exported. *)
Theorem C1_bare_line_reported_exported msp settings :
  export_entity msp line_bare settings
  = (msp,
     {| entity_id := "l2"; success := true; dxf_type := Some "LINE";
        warnings := []; error := None |})
  ∧ tally (export_entity msp line_bare settings).2 (0, 0, 0) = (1, 0, 0).
Proof.
  assert (export_entity msp line_bare settings
          = (msp,
             {| entity_id := "l2"; success := true; dxf_type := Some "LINE";
                warnings := []; error := None |})) as He.
  { rewrite (export_entity_dispatched msp line_bare settings "LINE"
               (_export_line float_of_str writer_raises)).
    - reflexivity.
    - vm_compute. reflexivity.
    - apply r12_supported_compatible. rewrite !elem_of_cons. tauto.
    - reflexivity. }
  split; [exact He|]. rewrite He. reflexivity.
Qed.

End ConverterFacts.

Lemma C10_zero_radius_circle_witness :
  export_entity_in_sample (empty_modelspace AC1015) circle_zero_radius default_settings
  = (empty_modelspace AC1015,
     {| entity_id := "c1"; success := true; dxf_type := Some "CIRCLE";
        warnings := []; error := None |}).
Proof.
  apply (C10_zero_radius_circle float_refuses_str ascii_upper writer_accepts
           (empty_modelspace AC1015) circle_zero_radius default_settings
           (pt 1 2) false).
  - reflexivity.
  - vm_compute. reflexivity.
  - vm_compute. reflexivity.
Defined.

(** The claim C5 as worded fails for the kind polyline: the registry maps it
    to POLYLINE, for which there is no builder. *)
Lemma C5_polyline_kind_counterexample :
  _get_points float_refuses_str polyline_entity ["points"; "vertices"; "polygon"]
  = Ok (Some [pt 0 0; pt 5 5])
  ∧ export_entity_in_sample (empty_modelspace AC1015) polyline_entity default_settings
    = (empty_modelspace AC1015,
       {| entity_id := "p1"; success := false; dxf_type := Some "POLYLINE";
          warnings := ["Export for 'POLYLINE' not yet implemented"];
          error := Some (ErrMsg "Entity type export not implemented") |}).
Proof. split; vm_compute; reflexivity. Qed.

Lemma C5_lwpolyline_emitted_witness :
  (export_entity_in_sample (empty_modelspace AC1015) rectangle_entity default_settings).2
  = {| entity_id := "r1"; success := true; dxf_type := Some "LWPOLYLINE";
       warnings := []; error := None |}
  ∧ drawn (export_entity_in_sample (empty_modelspace AC1015) rectangle_entity
             default_settings).1
    = [LwPolyline [pt 0 0; pt 4 0; pt 4 3; pt 0 3] true
         (common_attribs ascii_upper rectangle_entity default_settings)].
Proof.
  assert (rect_ok : se_type rectangle_entity ∈ ["lwpolyline"; "rectangle"; "rect"])
    by (rewrite !elem_of_cons; tauto).
  assert (v_ok : version default_settings ≠ AC1009) by discriminate.
  assert (pts_ok :
    _get_points float_refuses_str rectangle_entity ["points"; "vertices"; "polygon"]
    = Ok (Some [pt 0 0; pt 4 0; pt 4 3; pt 0 3])) by (vm_compute; reflexivity).
  assert (len_ok : (2 ≤ length [pt 0 0; pt 4 0; pt 4 3; pt 0 3])%nat)
    by (cbn; lia).
  pose proof (C5_lwpolyline_emitted float_refuses_str ascii_upper writer_accepts
                (empty_modelspace AC1015) rectangle_entity default_settings
                [pt 0 0; pt 4 0; pt 4 3; pt 0 3] rect_ok v_ok pts_ok len_ok eq_refl)
    as H.
  unfold export_entity_in_sample. rewrite H. split; reflexivity.
Defined.

(* ========================================================================= *)
(** ** Properties of geometry extraction *)
(* ========================================================================= *)

Section FirstAlias.

Context {A : Type} (parse : value → result (option A)).

Lemma first_alias_skip data key keys outcome :
  passed_over parse data key →
  first_alias_yields parse data keys outcome →
  first_alias_yields parse data (key :: keys) outcome.
Proof.
  intros Hkey. destruct outcome as [[a|]|e]; cbn.
  - intros (before & k & after & val & -> & Hb & Hk & Hp).
    exists (key :: before), k, after, val. repeat split; auto.
  - intros Hall. constructor; assumption.
  - intros (before & k & after & val & -> & Hb & Hk & Hp).
    exists (key :: before), k, after, val. repeat split; auto.
Qed.

(** Any loop of the shape of the four extractors yields what the first
    alias that is not passed over yields. *)
Lemma alias_loop_spec (loop : gmap string value → list string → result (option A)) :
  (∀ data, loop data [] = Ok None) →
  (∀ data key keys,
     loop data (key :: keys)
     = match data !! key with
       | Some val =>
           r ← parse val;
           match r with
           | Some a => mret (Some a)
           | None => loop data keys
           end
       | None => loop data keys
       end) →
  ∀ data keys, first_alias_yields parse data keys (loop data keys).
Proof.
  intros Hnil Hcons data keys. induction keys as [|key keys IH].
  - rewrite Hnil. constructor.
  - rewrite Hcons. destruct (data !! key) as [val|] eqn:Hk.
    + destruct (parse val) as [[a|]|e] eqn:Hp; cbn.
      * exists [], key, keys, val. repeat split; auto.
      * apply first_alias_skip; [|exact IH].
        unfold passed_over. rewrite Hk. exact Hp.
      * exists [], key, keys, val. repeat split; auto.
    + apply first_alias_skip; [|exact IH].
      unfold passed_over. rewrite Hk. exact I.
Qed.

(** An extraction that raises has met an alias whose value raises. *)
Lemma first_alias_raise data keys e :
  first_alias_yields parse data keys (Raise e) →
  ∃ key val, key ∈ keys ∧ data !! key = Some val ∧ parse val = Raise e.
Proof.
  intros (before & key & after & val & -> & _ & Hk & Hp).
  exists key, val. split; [|split; assumption].
  apply elem_of_app. right. left.
Qed.

End FirstAlias.

Section ExtractorFacts.

Variable float_of_str : string -> option pyfloat.

(** Which values [float()] refuses, and how. *)
Lemma py_float_raises c e :
  py_float float_of_str c = Raise e →
  match c with
  | VBool _ | VFloat _ => False
  | VInt z => e = OverflowError ∧ ∃ sign, float_of_Z z = S754_infinity sign
  | VStr s => e = ValueError ∧ float_of_str s = None
  | VNone | VList _ | VTuple _ | VDict _ => e = TypeError
  end.
Proof.
  destruct c as [|b|z|f|s|l|l|d]; cbn; try congruence.
  - destruct (float_of_Z z) eqn:E; try congruence. intros [= <-]. eauto.
  - destruct (float_of_str s); [congruence|]. intros [= <-]. auto.
Qed.

Lemma float_pair_raises a b e :
  float_pair float_of_str a b = Raise e →
  py_float float_of_str a = Raise e ∨ py_float float_of_str b = Raise e.
Proof.
  unfold float_pair.
  destruct (py_float float_of_str a), (py_float float_of_str b);
    cbn; intros H; try discriminate; injection H as ->; auto.
Qed.

(** [point_of_value] hands the coordinates of a point-shaped value to
    [float()] and passes over every other value. *)
Lemma point_of_value_coordinates val :
  point_of_value float_of_str val
  = match point_coordinates val with
    | Some (a, b) => p ← float_pair float_of_str a b; mret (Some p)
    | None => Ok None
    end.
Proof.
  destruct val as [|b|z|f|s|l|l|d]; try reflexivity.
  - destruct l as [|a [|b l]]; reflexivity.
  - destruct l as [|a [|b l]]; reflexivity.
  - cbn. destruct (is_not_none _ && is_not_none _); reflexivity.
Qed.

Lemma point_of_value_raises val e :
  point_of_value float_of_str val = Raise e →
  ∃ a b, point_coordinates val = Some (a, b)
         ∧ (py_float float_of_str a = Raise e ∨ py_float float_of_str b = Raise e).
Proof.
  rewrite point_of_value_coordinates.
  destruct (point_coordinates val) as [[a b]|]; [|discriminate].
  intros H. exists a, b. split; [reflexivity|]. apply float_pair_raises.
  destruct (float_pair float_of_str a b); [discriminate|].
  cbn in H. injection H as ->. reflexivity.
Qed.

Lemma collect_points_raises items e :
  collect_points float_of_str items = Raise e →
  ∃ item, item ∈ items ∧ point_of_value float_of_str item = Raise e.
Proof.
  induction items as [|item items IH]; cbn; [discriminate|].
  destruct (point_of_value float_of_str item) as [r|e'] eqn:Hp; cbn.
  - destruct (collect_points float_of_str items) as [ps|e'']; cbn; [discriminate|].
    intros [= <-]. destruct (IH eq_refl) as (it & Hin & Hit).
    exists it. split; [right; exact Hin|exact Hit].
  - intros [= <-]. exists item. split; [left|exact Hp].
Qed.

Lemma points_of_value_raises val e :
  points_of_value float_of_str val = Raise e →
  ∃ l item, val = VList l ∧ item ∈ l
            ∧ point_of_value float_of_str item = Raise e.
Proof.
  destruct val as [|b|z|f|s|l|l|d]; cbn; try discriminate.
  destruct (collect_points float_of_str l) as [ps|e'] eqn:Hc; cbn; [discriminate|].
  intros [= <-]. destruct (collect_points_raises l e' Hc) as (item & Hin & Hit).
  exists l, item. auto.
Qed.

Lemma float_of_value_raises val e :
  float_of_value float_of_str val = Raise e →
  e = OverflowError ∧ ∃ z sign, val = VInt z ∧ float_of_Z z = S754_infinity sign.
Proof.
  destruct val as [|b|z|f|s|l|l|d]; cbn; try discriminate.
  destruct (float_of_Z z) eqn:E; cbn; try discriminate.
  intros [= <-]. eauto.
Qed.

(** The claim C4 as worded fails on a sequence whose coordinates are not
    numbers: the extractor raises. *)
Lemma get_point_null_coords_raises :
  _get_point float_of_str line_null_coords ["start"; "startPoint"; "p1"]
  = Raise TypeError.
Proof. vm_compute. reflexivity. Qed.

(** C4, amended. Each extractor examines the aliases in order, passes
    over an alias that is missing from the bag or whose value has not the
    requested shape, and yields what the first remaining alias yields: the
    parsed value, absent when none remains, or the exception that parsing
    it raises. String extraction never raises. Number extraction raises
    only [OverflowError], on an integer beyond the range of a float. Point
    extraction raises only on a point-shaped value one of whose two
    coordinates [float()] refuses, and point-list extraction only on a list
    holding such an item. *)
Theorem C4_first_alias entity keys :
  let data := model_dump entity in
  first_alias_yields (point_of_value float_of_str) data keys
    (_get_point float_of_str entity keys)
  ∧ first_alias_yields (points_of_value float_of_str) data keys
      (_get_points float_of_str entity keys)
  ∧ first_alias_yields (float_of_value float_of_str) data keys
      (_get_float float_of_str entity keys)
  ∧ first_alias_yields string_of_value data keys (_get_string entity keys)
  ∧ (∃ r, _get_string entity keys = Ok r)
  ∧ (∀ e, _get_float float_of_str entity keys = Raise e →
       e = OverflowError
       ∧ ∃ key z sign, key ∈ keys ∧ data !! key = Some (VInt z)
                       ∧ float_of_Z z = S754_infinity sign)
  ∧ (∀ e, _get_point float_of_str entity keys = Raise e →
       ∃ key val a b,
         key ∈ keys ∧ data !! key = Some val
         ∧ point_coordinates val = Some (a, b)
         ∧ (py_float float_of_str a = Raise e ∨ py_float float_of_str b = Raise e))
  ∧ (∀ e, _get_points float_of_str entity keys = Raise e →
       ∃ key l item a b,
         key ∈ keys ∧ data !! key = Some (VList l) ∧ item ∈ l
         ∧ point_coordinates item = Some (a, b)
         ∧ (py_float float_of_str a = Raise e ∨ py_float float_of_str b = Raise e)).
Proof.
  intros data.
  assert (first_alias_yields (point_of_value float_of_str) data keys
            (_get_point float_of_str entity keys)) as Hpoint
    by (apply (alias_loop_spec _ (_get_point_in float_of_str)); reflexivity).
  assert (first_alias_yields (points_of_value float_of_str) data keys
            (_get_points float_of_str entity keys)) as Hpoints
    by (apply (alias_loop_spec _ (_get_points_in float_of_str)); reflexivity).
  assert (first_alias_yields (float_of_value float_of_str) data keys
            (_get_float float_of_str entity keys)) as Hfloat
    by (apply (alias_loop_spec _ (_get_float_in float_of_str)); reflexivity).
  assert (first_alias_yields string_of_value data keys
            (_get_string entity keys)) as Hstring
    by (apply (alias_loop_spec _ _get_string_in); reflexivity).
  repeat apply conj; try assumption.
  - destruct (_get_string entity keys) as [r|e]; [eauto|].
    apply first_alias_raise in Hstring. destruct Hstring as (key & val & _ & _ & Hp).
    destruct val; discriminate.
  - intros e He. rewrite He in Hfloat.
    apply first_alias_raise in Hfloat. destruct Hfloat as (key & val & Hin & Hk & Hp).
    apply float_of_value_raises in Hp. destruct Hp as (-> & z & sign & -> & Hz).
    split; [reflexivity|]. exists key, z, sign. auto.
  - intros e He. rewrite He in Hpoint.
    apply first_alias_raise in Hpoint. destruct Hpoint as (key & val & Hin & Hk & Hp).
    apply point_of_value_raises in Hp. destruct Hp as (a & b & Hab & Hr).
    exists key, val, a, b. auto.
  - intros e He. rewrite He in Hpoints.
    apply first_alias_raise in Hpoints.
    destruct Hpoints as (key & val & Hin & Hk & Hp).
    apply points_of_value_raises in Hp. destruct Hp as (l & item & -> & Hit & Hp).
    apply point_of_value_raises in Hp. destruct Hp as (a & b & Hab & Hr).
    exists key, l, item, a, b. auto.
Qed.

End ExtractorFacts.

(** The claim C4 as worded fails on a sequence whose coordinates are not
    numbers: the point extractor raises. It fails as well on a number no
    float can hold: the number extractor raises. *)
Lemma C4_extractor_raises_counterexample :
  _get_point float_refuses_str line_null_coords ["start"; "startPoint"; "p1"]
  = Raise TypeError
  ∧ _get_float float_refuses_str huge_radius_circle ["radius"; "r"]
    = Raise OverflowError.
Proof. split; vm_compute; reflexivity. Qed.

Lemma C4_first_alias_witness :
  ∃ key z sign,
    key ∈ ["radius"; "r"]
    ∧ model_dump huge_radius_circle !! key = Some (VInt z)
    ∧ float_of_Z z = S754_infinity sign.
Proof.
  pose proof (C4_first_alias float_refuses_str huge_radius_circle ["radius"; "r"])
    as (_ & _ & _ & _ & _ & Hfloat & _).
  apply (Hfloat OverflowError). vm_compute. reflexivity.
Defined.

(* ========================================================================= *)
(** ** Further properties of the builders *)
(* ========================================================================= *)

Section BuilderFacts.

Variable float_of_str : string -> option pyfloat.
Variable str_upper : string -> string.
Variable writer_raises : Modelspace -> primitive -> option exn.

Local Abbreviation export_entity :=
  (_export_entity float_of_str str_upper writer_raises).

Lemma msp_add_outcome msp entity settings t builder drawing :
  ENTITY_TYPE_MAPPING_get (se_type entity) = Some t →
  r12_incompatible (version settings) t = false →
  dispatch float_of_str writer_raises t = Some builder →
  builder msp entity (common_attribs str_upper entity settings)
  = msp_add writer_raises msp drawing →
  export_entity msp entity settings = drawn_or_refused writer_raises msp entity t drawing.
Proof.
  intros Ht Hc Hd Hb.
  rewrite (export_entity_dispatched _ _ _ msp entity settings t builder Ht Hc Hd).
  rewrite Hb. unfold msp_add, drawn_or_refused.
  destruct (writer_raises msp drawing); reflexivity.
Qed.

(** A line whose two end points resolve is handed to the writer as one LINE
    primitive between them, under every version: the result is a success
    and the primitive is drawn when the writer accepts it; when the writer
    raises, nothing is drawn and the result is a failure that carries the
    exception. *)
Theorem line_with_both_points msp entity settings s e :
  se_type entity = "line" →
  _get_point float_of_str entity ["start"; "startPoint"; "p1"] = Ok (Some s) →
  _get_point float_of_str entity ["end"; "endPoint"; "p2"] = Ok (Some e) →
  export_entity msp entity settings
  = drawn_or_refused writer_raises msp entity "LINE"
      (Line s e (common_attribs str_upper entity settings)).
Proof.
  intros Hty Hs He.
  apply (msp_add_outcome msp entity settings "LINE"
           (_export_line float_of_str writer_raises)).
  - rewrite Hty. vm_compute. reflexivity.
  - apply r12_supported_compatible. rewrite !elem_of_cons. tauto.
  - reflexivity.
  - unfold _export_line. rewrite Hs, He. reflexivity.
Qed.

(** An arc whose centre, radius and two angles resolve is handed to the
    writer whatever the radius is, zero included (the four values are
    tested for presence, not for truthiness). *)
Theorem arc_with_all_fields msp entity settings c r sa ea :
  se_type entity = "arc" →
  _get_point float_of_str entity ["center"; "centerPoint"] = Ok (Some c) →
  _get_float float_of_str entity ["radius"; "r"] = Ok (Some r) →
  _get_float float_of_str entity ["startAngle"; "start_angle"] = Ok (Some sa) →
  _get_float float_of_str entity ["endAngle"; "end_angle"] = Ok (Some ea) →
  export_entity msp entity settings
  = drawn_or_refused writer_raises msp entity "ARC"
      (Arc c r sa ea (common_attribs str_upper entity settings)).
Proof.
  intros Hty Hc Hr Hsa Hea.
  apply (msp_add_outcome msp entity settings "ARC"
           (_export_arc float_of_str writer_raises)).
  - rewrite Hty. vm_compute. reflexivity.
  - apply r12_supported_compatible. rewrite !elem_of_cons. tauto.
  - reflexivity.
  - unfold _export_arc. rewrite Hc, Hr, Hsa, Hea. reflexivity.
Qed.

(** A text whose insertion point resolves and whose text is a non-empty
    string is handed to the writer with that text, placed at that point,
    with a height and a rotation added to the common attributes; an absent
    or zero height becomes 2.5 and an absent or zero rotation becomes 0. *)
Theorem text_with_insert_and_text msp entity settings ins t h r :
  se_type entity = "text" →
  _get_point float_of_str entity ["insert"; "position"; "location"] = Ok (Some ins) →
  _get_string entity ["text"; "content"; "value"] = Ok (Some t) →
  t ≠ "" →
  _get_float float_of_str entity ["height"; "fontSize"] = Ok h →
  _get_float float_of_str entity ["rotation"; "angle"] = Ok r →
  export_entity msp entity settings
  = drawn_or_refused writer_raises msp entity "TEXT"
      (Text t
         (<["rotation" := rotation_or_default r]>
            (<["height" := AFloat (height_or_default h)]>
               (common_attribs str_upper entity settings)))
         ins).
Proof.
  intros Hty Hins Ht Hne Hh Hr.
  apply (msp_add_outcome msp entity settings "TEXT"
           (_export_text float_of_str writer_raises)).
  - rewrite Hty. vm_compute. reflexivity.
  - apply r12_supported_compatible. rewrite !elem_of_cons. tauto.
  - reflexivity.
  - unfold _export_text. rewrite Hins, Ht, Hh. cbn [mbind result_bind].
    apply str_truthy_true in Hne. rewrite Hne, Hr. reflexivity.
Qed.

(** A point whose location resolves is handed to the writer as one POINT
    primitive at that location. *)
Theorem point_with_location msp entity settings l :
  se_type entity = "point" →
  _get_point float_of_str entity ["location"; "position"; "point"] = Ok (Some l) →
  export_entity msp entity settings
  = drawn_or_refused writer_raises msp entity "POINT"
      (Point l (common_attribs str_upper entity settings)).
Proof.
  intros Hty Hl.
  apply (msp_add_outcome msp entity settings "POINT"
           (_export_point float_of_str writer_raises)).
  - rewrite Hty. vm_compute. reflexivity.
  - apply r12_supported_compatible. rewrite !elem_of_cons. tauto.
  - reflexivity.
  - unfold _export_point. rewrite Hl. reflexivity.
Qed.

End BuilderFacts.

Lemma line_with_both_points_witness :
  export_entity_in_sample (empty_modelspace AC1009) red_line r12_settings
  = drawn_or_refused writer_accepts (empty_modelspace AC1009) red_line "LINE"
      (Line (pt 0 0) (pt 1 1) (common_attribs ascii_upper red_line r12_settings)).
Proof.
  apply (line_with_both_points float_refuses_str ascii_upper writer_accepts
           (empty_modelspace AC1009) red_line r12_settings (pt 0 0) (pt 1 1)).
  - reflexivity.
  - vm_compute. reflexivity.
  - vm_compute. reflexivity.
Defined.

Lemma arc_with_all_fields_witness :
  export_entity_in_sample (empty_modelspace AC1015) arc_zero_radius default_settings
  = drawn_or_refused writer_accepts (empty_modelspace AC1015) arc_zero_radius "ARC"
      (Arc (pt 1 2) float_zero float_zero (float_of_Z 90)
         (common_attribs ascii_upper arc_zero_radius default_settings)).
Proof.
  apply (arc_with_all_fields float_refuses_str ascii_upper writer_accepts
           (empty_modelspace AC1015) arc_zero_radius default_settings
           (pt 1 2) float_zero float_zero (float_of_Z 90)).
  - reflexivity.
  - vm_compute. reflexivity.
  - vm_compute. reflexivity.
  - vm_compute. reflexivity.
  - vm_compute. reflexivity.
Defined.

Lemma text_with_insert_and_text_witness :
  export_entity_in_sample (empty_modelspace AC1015) text_entity default_settings
  = drawn_or_refused writer_accepts (empty_modelspace AC1015) text_entity "TEXT"
      (Text "hello"
         (<["rotation" := AInt 0]>
            (<["height" := AFloat float_2_5]>
               (common_attribs ascii_upper text_entity default_settings)))
         (pt 1 1)).
Proof.
  apply (text_with_insert_and_text float_refuses_str ascii_upper writer_accepts
           (empty_modelspace AC1015) text_entity default_settings
           (pt 1 1) "hello" (Some float_zero) None).
  - reflexivity.
  - vm_compute. reflexivity.
  - vm_compute. reflexivity.
  - discriminate.
  - vm_compute. reflexivity.
  - vm_compute. reflexivity.
Defined.

Lemma point_with_location_witness :
  export_entity_in_sample (empty_modelspace AC1015) point_entity default_settings
  = drawn_or_refused writer_accepts (empty_modelspace AC1015) point_entity "POINT"
      (Point (pt 3 4) (common_attribs ascii_upper point_entity default_settings)).
Proof.
  apply (point_with_location float_refuses_str ascii_upper writer_accepts
           (empty_modelspace AC1015) point_entity default_settings (pt 3 4)).
  - reflexivity.
  - vm_compute. reflexivity.
Defined.

(* ========================================================================= *)
(** ** Invariants of the converter and of the export loop *)
(* ========================================================================= *)

Lemma registry_lookup_inv kind t :
  ENTITY_TYPE_MAPPING_get kind = Some t →
  (kind, t) ∈
    [ ("line", "LINE"); ("polyline", "POLYLINE"); ("lwpolyline", "LWPOLYLINE");
      ("circle", "CIRCLE"); ("arc", "ARC"); ("ellipse", "ELLIPSE");
      ("text", "TEXT"); ("mtext", "MTEXT"); ("spline", "SPLINE");
      ("rectangle", "LWPOLYLINE"); ("rect", "LWPOLYLINE"); ("point", "POINT");
      ("dimension", "DIMENSION"); ("block", "INSERT"); ("leader", "LEADER");
      ("hatch", "HATCH"); ("xline", "XLINE"); ("ray", "RAY") ].
Proof.
  unfold ENTITY_TYPE_MAPPING_get, ENTITY_TYPE_MAPPING.
  destruct (list_to_map _ !! kind) as [o|] eqn:E; [|discriminate].
  intros ->. apply elem_of_list_to_map_2 in E.
  rewrite !elem_of_cons, elem_of_nil in E. rewrite !elem_of_cons.
  repeat (destruct E as [E|E];
          [first [discriminate | injection E as -> <-; tauto]|]).
  contradiction.
Qed.

Section ConverterInvariants.

Variable float_of_str : string -> option pyfloat.
Variable str_upper : string -> string.
Variable writer_raises : Modelspace -> primitive -> option exn.

Local Abbreviation export_entity :=
  (_export_entity float_of_str str_upper writer_raises).
Local Abbreviation step := (export_step float_of_str str_upper writer_raises).

Lemma msp_add_effect msp p attribs msp' :
  primitive_attribs p !! "layer" = attribs !! "layer" →
  msp_add writer_raises msp p = Ok msp' →
  drew_nothing_or_one msp msp' attribs.
Proof.
  intros Hl. unfold msp_add. destruct (writer_raises msp p); [discriminate|].
  intros [= <-]. right. exists p. split; [reflexivity|exact Hl].
Qed.

Lemma builder_effect t builder msp entity attribs msp' :
  dispatch float_of_str writer_raises t = Some builder →
  builder msp entity attribs = Ok msp' →
  drew_nothing_or_one msp msp' attribs.
Proof.
  unfold dispatch. intros Hd.
  repeat case_decide; try discriminate; injection Hd as <-.
  - unfold _export_line.
    destruct (_get_point float_of_str entity ["start"; "startPoint"; "p1"])
      as [[s|]|]; cbn [mbind result_bind mret result_ret]; try discriminate;
      destruct (_get_point float_of_str entity ["end"; "endPoint"; "p2"])
        as [[e|]|]; cbn [mbind result_bind mret result_ret]; try discriminate;
      try (intros [= <-]; left; reflexivity).
    apply msp_add_effect. reflexivity.
  - unfold _export_lwpolyline.
    destruct (_get_points float_of_str entity ["points"; "vertices"; "polygon"])
      as [[pts|]|]; cbn [mbind result_bind mret result_ret]; try discriminate;
      try (intros [= <-]; left; reflexivity).
    case_bool_decide; [|intros [= <-]; left; reflexivity].
    apply msp_add_effect. reflexivity.
  - unfold _export_circle.
    destruct (_get_point float_of_str entity ["center"; "centerPoint"])
      as [[c|]|]; cbn [mbind result_bind mret result_ret]; try discriminate;
      destruct (_get_float float_of_str entity ["radius"; "r"])
        as [[r|]|]; cbn [mbind result_bind mret result_ret]; try discriminate;
      try (intros [= <-]; left; reflexivity).
    destruct (float_truthy r); [|intros [= <-]; left; reflexivity].
    apply msp_add_effect. reflexivity.
  - unfold _export_arc.
    destruct (_get_point float_of_str entity ["center"; "centerPoint"])
      as [[c|]|]; cbn [mbind result_bind mret result_ret]; try discriminate;
      destruct (_get_float float_of_str entity ["radius"; "r"])
        as [[r|]|]; cbn [mbind result_bind mret result_ret]; try discriminate;
      destruct (_get_float float_of_str entity ["startAngle"; "start_angle"])
        as [[sa|]|]; cbn [mbind result_bind mret result_ret]; try discriminate;
      destruct (_get_float float_of_str entity ["endAngle"; "end_angle"])
        as [[ea|]|]; cbn [mbind result_bind mret result_ret]; try discriminate;
      try (intros [= <-]; left; reflexivity).
    apply msp_add_effect. reflexivity.
  - unfold _export_text.
    destruct (_get_point float_of_str entity ["insert"; "position"; "location"])
      as [[ins|]|]; cbn [mbind result_bind mret result_ret]; try discriminate;
      destruct (_get_string entity ["text"; "content"; "value"])
        as [[txt|]|]; cbn [mbind result_bind mret result_ret]; try discriminate;
      destruct (_get_float float_of_str entity ["height"; "fontSize"])
        as [h|]; cbn [mbind result_bind mret result_ret]; try discriminate;
      try (intros [= <-]; left; reflexivity).
    destruct (str_truthy txt); [|intros [= <-]; left; reflexivity].
    destruct (_get_float float_of_str entity ["rotation"; "angle"])
      as [r|]; cbn [mbind result_bind mret result_ret]; [|discriminate].
    apply msp_add_effect. cbn [primitive_attribs].
    rewrite !lookup_insert_ne by discriminate. reflexivity.
  - unfold _export_point.
    destruct (_get_point float_of_str entity ["location"; "position"; "point"])
      as [[l|]|]; cbn [mbind result_bind mret result_ret]; try discriminate;
      try (intros [= <-]; left; reflexivity).
    apply msp_add_effect. reflexivity.
Qed.

Lemma common_attribs_layer entity settings :
  common_attribs str_upper entity settings !! "layer"
  = Some (target_layer_of entity settings).
Proof.
  unfold common_attribs, target_layer_of.
  destruct (opt_str_truthy (se_color entity)).
  - rewrite lookup_insert_ne by discriminate. apply lookup_singleton_eq.
  - apply lookup_singleton_eq.
Qed.

(** Converting one entity either leaves the modelspace as it was or appends
    one primitive to it, and then the result is a success and the primitive
    carries the entity's target layer; a result that is not a success has
    drawn nothing. With a non-empty flatten target configured, that layer is
    the flatten target, whatever the entity's own layer and the mapping. *)
Theorem one_primitive_on_target_layer msp entity settings :
  let out := export_entity msp entity settings in
  (out.1 = msp
   ∨ (success out.2 = true
      ∧ ∃ p, out.1 = {| dxfversion := dxfversion msp; drawn := drawn msp ++ [p] |}
             ∧ primitive_attribs p !! "layer"
               = Some (target_layer_of entity settings)))
  ∧ (success out.2 = false → out.1 = msp)
  ∧ (∀ target, flatten_to_layer (layers settings) = Some target → target ≠ "" →
       target_layer_of entity settings = AStr target).
Proof.
  intros out.
  assert (out.1 = msp
          ∨ (success out.2 = true
             ∧ ∃ p, out.1 = {| dxfversion := dxfversion msp;
                               drawn := drawn msp ++ [p] |}
                    ∧ primitive_attribs p !! "layer"
                      = Some (target_layer_of entity settings))) as H.
  { unfold out, _export_entity.
    destruct (ENTITY_TYPE_MAPPING_get (se_type entity)) as [t|]; [|left; reflexivity].
    destruct (r12_incompatible _ _); [left; reflexivity|].
    destruct (dispatch _ _ t) as [builder|] eqn:Hd; [|left; reflexivity].
    destruct (builder msp entity _) as [msp'|e] eqn:Hb; [|left; reflexivity].
    destruct (builder_effect t builder msp entity _ msp' Hd Hb) as [->|(p & -> & Hp)].
    - left. reflexivity.
    - right. split; [reflexivity|]. exists p. split; [reflexivity|].
      rewrite Hp. apply common_attribs_layer. }
  split; [exact H|]. split.
  - intros Hs. destruct H as [H|[H _]]; [exact H|congruence].
  - intros target Hf Hne. unfold target_layer_of, _get_target_layer.
    rewrite Hf. cbn. apply str_truthy_true in Hne. rewrite Hne. reflexivity.
Qed.

Lemma export_step_msp settings acc e :
  ea_msp (step settings acc e) = (export_entity (ea_msp acc) e settings).1.
Proof. unfold export_step. destruct (_export_entity _ _ _ _ _ _); reflexivity. Qed.

Lemma tally_exported r c :
  (tally r c).1.1 = c.1.1 + (if success r then 1 else 0).
Proof.
  destruct c as [[x s] f]. unfold tally.
  destruct (success r); [reflexivity|]. destruct (dxf_type r); cbn; lia.
Qed.

(** Over the loop of [export_scene] the modelspace only grows, by appending,
    and by no more primitives than entities were counted as exported: the
    entities counted as skipped or failed leave nothing in the document. *)
Theorem loop_draws_no_more_than_exported settings ents acc :
  let acc' := fold_left (step settings) ents acc in
  ∃ added,
    drawn (ea_msp acc') = drawn (ea_msp acc) ++ added
    ∧ dxfversion (ea_msp acc') = dxfversion (ea_msp acc)
    ∧ Z.of_nat (length added) ≤ (ea_counts acc').1.1 - (ea_counts acc).1.1
    ∧ Forall (λ p, ∃ e, e ∈ ents
                        ∧ primitive_attribs p !! "layer"
                          = Some (target_layer_of e settings)) added.
Proof.
  cbv zeta. revert acc. induction ents as [|e ents IH]; intros acc.
  - exists []. cbn. rewrite app_nil_r. repeat split; [lia|constructor].
  - cbn [fold_left].
    destruct (IH (step settings acc e)) as (added & Hd & Hv & Hn & Hl).
    assert (Forall (λ p, ∃ e0, e0 ∈ e :: ents
                          ∧ primitive_attribs p !! "layer"
                            = Some (target_layer_of e0 settings)) added) as Hl'.
    { eapply Forall_impl; [exact Hl|]. intros p (e0 & Hin & Hp).
      exists e0. split; [right; exact Hin|exact Hp]. }
    rewrite Hd, Hv. rewrite export_step_counts, tally_exported in Hn.
    rewrite export_step_msp.
    pose proof (one_primitive_on_target_layer (ea_msp acc) e settings) as (Hout & _ & _).
    destruct (export_entity (ea_msp acc) e settings) as [msp' r].
    cbn [fst snd] in *.
    destruct Hout as [-> | (Hs & p & -> & Hp)].
    + exists added. repeat split; try assumption.
      destruct (success r); lia.
    + exists (p :: added). cbn [drawn dxfversion]. rewrite <- app_assoc.
      repeat split.
      * rewrite Hs in Hn. cbn [length]. lia.
      * constructor; [|exact Hl']. exists e. split; [left|exact Hp].
Qed.

(** Only the kinds line, lwpolyline, rectangle, rect, circle, arc, text and
    point can ever be exported with success, and under AC1009 (R12) only
    line, circle, arc, text and point: no polyline kind succeeds there. *)
Theorem only_built_kinds_succeed msp entity settings :
  success (_export_entity float_of_str str_upper writer_raises
             msp entity settings).2 = true →
  se_type entity ∈ ["line"; "lwpolyline"; "rectangle"; "rect";
                    "circle"; "arc"; "text"; "point"]
  ∧ (version settings = AC1009 →
     se_type entity ∈ ["line"; "circle"; "arc"; "text"; "point"]).
Proof.
  unfold _export_entity.
  destruct (ENTITY_TYPE_MAPPING_get (se_type entity)) as [t|] eqn:Ht; [|discriminate].
  destruct (r12_incompatible (version settings) t) eqn:Hc; [discriminate|].
  destruct (dispatch _ _ t) as [builder|] eqn:Hd; [|discriminate].
  intros _. apply registry_lookup_inv in Ht.
  assert (t ∈ ["LINE"; "LWPOLYLINE"; "CIRCLE"; "ARC"; "TEXT"; "POINT"]) as Hb.
  { unfold dispatch in Hd. rewrite !elem_of_cons.
    repeat case_decide; try discriminate; tauto. }
  clear Hd.
  rewrite !elem_of_cons, elem_of_nil in Ht.
  rewrite !elem_of_cons, elem_of_nil in Hb.
  split.
  - rewrite !elem_of_cons.
    repeat (destruct Ht as [Ht|Ht];
            [injection Ht as -> ->; first [tauto | exfalso; intuition discriminate]|]).
    contradiction.
  - intros Hv. rewrite Hv in Hc.
    assert (t ≠ "LWPOLYLINE") as Hne by (intros ->; vm_compute in Hc; discriminate).
    rewrite !elem_of_cons.
    repeat (destruct Ht as [Ht|Ht];
            [injection Ht as -> ->;
             first [tauto | exfalso; intuition (discriminate || congruence)]|]).
    contradiction.
Qed.

End ConverterInvariants.

Lemma only_built_kinds_succeed_witness :
  se_type red_line ∈ ["line"; "circle"; "arc"; "text"; "point"].
Proof.
  apply (only_built_kinds_succeed float_refuses_str ascii_upper writer_accepts
           (empty_modelspace AC1009) red_line r12_settings).
  - vm_compute. reflexivity.
  - reflexivity.
Defined.

(* ========================================================================= *)
(** ** Skipping, warnings and the agreement of validation with export *)
(* ========================================================================= *)

Lemma registry_get_None_kinds kind :
  ENTITY_TYPE_MAPPING_get kind = None ↔ kind ∉ mapped_kinds.
Proof.
  split.
  - intros Hn Hin. unfold mapped_kinds in Hin.
    rewrite !elem_of_cons, elem_of_nil in Hin.
    repeat (destruct Hin as [-> | Hin]; [vm_compute in Hn; discriminate|]).
    contradiction.
  - intros Hnot. destruct (ENTITY_TYPE_MAPPING_get kind) as [t|] eqn:E; [|reflexivity].
    exfalso. apply Hnot. apply registry_lookup_inv in E.
    unfold mapped_kinds. rewrite !elem_of_cons, elem_of_nil in E.
    rewrite !elem_of_cons.
    repeat (destruct E as [E|E]; [injection E as -> _; tauto|]).
    contradiction.
Qed.

Section SkippingFacts.

Variable float_of_str : string -> option pyfloat.
Variable str_upper : string -> string.
Variable writer_raises : Modelspace -> primitive -> option exn.
Variable setup_raises : SceneModel -> DxfExportSettings -> option exn.
Variable serialize_raises : Modelspace -> DxfEncoding -> option exn.

Local Abbreviation export_entity :=
  (_export_entity float_of_str str_upper writer_raises).
Local Abbreviation step := (export_step float_of_str str_upper writer_raises).
Local Abbreviation export := (export_scene float_of_str str_upper writer_raises
                                setup_raises serialize_raises).

(** An entity is counted as skipped exactly when its kind is not one of the
    eighteen kinds the registry maps to a primitive kind (this includes the
    internal kind angle-measurement); it then draws nothing and its result
    carries one warning that names the kind, and no error. Every other
    result that is not a success keeps a primitive kind and counts as
    failed. *)
Theorem skipped_iff_kind_unmapped msp entity settings :
  let out := export_entity msp entity settings in
  (is_skipped out.2 ↔ se_type entity ∉ mapped_kinds)
  ∧ (is_failed out.2 ↔ success out.2 = false ∧ se_type entity ∈ mapped_kinds)
  ∧ (se_type entity ∉ mapped_kinds →
     out = (msp,
            {| entity_id := se_id entity; success := false; dxf_type := None;
               warnings := ["Entity type '" +:+ se_type entity +:+ "' is not exportable"];
               error := None |})).
Proof.
  intros out.
  assert (ENTITY_TYPE_MAPPING_get (se_type entity) = None
          → out = (msp,
                   {| entity_id := se_id entity; success := false; dxf_type := None;
                      warnings := ["Entity type '" +:+ se_type entity
                                   +:+ "' is not exportable"];
                      error := None |})) as Hnone.
  { intros Hn. unfold out, _export_entity. rewrite Hn. reflexivity. }
  assert (∀ t, ENTITY_TYPE_MAPPING_get (se_type entity) = Some t
               → dxf_type out.2 = Some t) as Hsome.
  { intros t Ht. unfold out, _export_entity. rewrite Ht.
    destruct (r12_incompatible _ _); [reflexivity|].
    destruct (dispatch _ _ t) as [b|]; [|reflexivity].
    destruct (b _ _ _); reflexivity. }
  rewrite <- registry_get_None_kinds.
  assert (se_type entity ∈ mapped_kinds
          ↔ ENTITY_TYPE_MAPPING_get (se_type entity) ≠ None) as Hin.
  { rewrite registry_get_None_kinds.
    destruct (decide (se_type entity ∈ mapped_kinds)); tauto. }
  destruct (ENTITY_TYPE_MAPPING_get (se_type entity)) as [t|] eqn:Ht.
  - specialize (Hsome t eq_refl). unfold is_skipped, is_failed. rewrite Hsome.
    split; [|split].
    + split; [intros [_ ?]; discriminate | discriminate].
    + rewrite Hin. split; [intros [? _]; split; [assumption|discriminate]|].
      intros [? _]. split; [assumption|discriminate].
    + discriminate.
  - specialize (Hnone eq_refl). unfold is_skipped, is_failed. rewrite Hnone.
    cbn [snd success dxf_type]. split; [|split].
    + split; auto.
    + rewrite Hin. split; [intros [_ H]; congruence | intros [_ H]; congruence].
    + reflexivity.
Qed.

(** Validation and export agree on the two early rejections: validation
    finds an entity not exportable exactly when export skips it or fails it
    with the R12 error, so that an entity validation rejects is never
    exported with success; and validation reports issues exactly for the
    entities it rejects. *)
Theorem validation_agrees_with_export msp entity settings :
  let r := (export_entity msp entity settings).2 in
  let v := _validate_entity entity (version settings) in
  (exportable v = false
   ↔ is_skipped r
     ∨ error r = Some (ErrMsg "R12 version does not support this entity type"))
  ∧ (exportable v = false → success r = false)
  ∧ (issues v = [] ↔ exportable v = true).
Proof.
  intros r v. unfold r, v, _export_entity, _validate_entity, is_skipped.
  destruct (ENTITY_TYPE_MAPPING_get (se_type entity)) as [t|].
  - destruct (r12_incompatible (version settings) t).
    + cbn. repeat split; auto; try discriminate.
    + destruct (dispatch _ _ t) as [b|].
      * destruct (b _ _ _); cbn; repeat split; auto; try discriminate;
          intros [[_ ?]|?]; discriminate.
      * cbn; repeat split; auto; try discriminate.
        intros [[_ ?]|?]; discriminate.
  - cbn. repeat split; auto; try discriminate.
Qed.

Lemma export_entity_warnings msp entity settings :
  let r := (export_entity msp entity settings).2 in
  (length (warnings r) ≤ 1)%nat ∧ (success r = true → warnings r = []).
Proof.
  cbv zeta. unfold _export_entity.
  destruct (ENTITY_TYPE_MAPPING_get (se_type entity)) as [t|]; [|cbn; split; [lia|discriminate]].
  destruct (r12_incompatible _ _); [cbn; split; [lia|discriminate]|].
  destruct (dispatch _ _ t) as [b|]; [|cbn; split; [lia|discriminate]].
  destruct (b _ _ _); cbn; split; auto; lia.
Qed.

Lemma export_step_warnings settings acc e :
  ea_warnings (step settings acc e)
  = ea_warnings acc ++ warnings (export_entity (ea_msp acc) e settings).2.
Proof. unfold export_step. destruct (_export_entity _ _ _ _ _ _); reflexivity. Qed.

Lemma export_loop_warnings settings ents acc :
  ∃ rs,
    ea_entity_results (fold_left (step settings) ents acc)
      = ea_entity_results acc ++ rs
    ∧ ea_warnings (fold_left (step settings) ents acc)
      = ea_warnings acc ++ concat (map warnings rs)
    ∧ Forall (λ r, (length (warnings r) ≤ 1)%nat
                   ∧ (success r = true → warnings r = [])) rs.
Proof.
  revert acc. induction ents as [|e ents IH]; intros acc.
  - exists []. cbn. rewrite !app_nil_r. repeat split. constructor.
  - cbn [fold_left].
    destruct (IH (step settings acc e)) as (rs & Hres & Hw & Hall).
    rewrite Hres, Hw, export_step_results, export_step_warnings.
    pose proof (export_entity_warnings (ea_msp acc) e settings) as Hr.
    cbv zeta in Hr.
    set (r := (export_entity (ea_msp acc) e settings).2) in *. clearbody r.
    exists (r :: rs). rewrite <- !app_assoc. cbn [map concat app].
    repeat split; [constructor; assumption].
Qed.

(** The warnings of a returned response are the warnings of its per-entity
    results, in order. Each result has at most one warning and a success
    has none, so there are never more warnings than entities skipped or
    failed. *)
Theorem response_warnings_from_results scene settings ids lns resp :
  export_scene float_of_str str_upper writer_raises setup_raises serialize_raises
    scene settings ids lns = Ok resp →
  response_warnings resp = concat (map warnings (entity_results resp))
  ∧ Forall (λ r, (length (warnings r) ≤ 1)%nat
                 ∧ (success r = true → warnings r = [])) (entity_results resp)
  ∧ Z.of_nat (length (response_warnings resp))
    ≤ skipped_entities (stats resp) + failed_entities (stats resp).
Proof.
  intros H.
  destruct (export_scene_returns _ _ _ _ _ _ _ _ _ _ H) as (_ & _ & _ & Hs & Hf & _).
  unfold export_scene in H.
  destruct (setup_raises scene settings); [discriminate|].
  set (filtered := _filter_entities _ _ _ _) in H.
  set (acc0 := {| ea_msp := _; ea_entity_results := []; ea_counts := (0, 0, 0);
                  ea_warnings := [] |}) in H.
  destruct (export_loop_warnings settings filtered acc0) as (rs & Hres & Hw & Hall).
  destruct (ea_counts (fold_left (step settings) filtered acc0)) as [[x s] f].
  destruct (serialize_raises _ _); [discriminate|].
  injection H as <-. cbn [entity_results response_warnings stats
    skipped_entities failed_entities] in *.
  rewrite Hres, Hw in *. cbn [acc0 ea_entity_results ea_warnings app] in *.
  split; [reflexivity|]. split; [exact Hall|].
  rewrite Hs, Hf. clear -Hall. unfold how_many.
  induction Hall as [|r rs [Hlen Hok] _ IH]; [cbn; lia|].
  cbn [map concat]. rewrite length_app, !filter_cons.
  unfold is_skipped, is_failed in *.
  destruct r as [i ok ty ws er]; cbn [success dxf_type warnings] in *.
  destruct ok.
  - rewrite (Hok eq_refl). repeat case_decide; try (exfalso; intuition congruence).
    cbn [length]. lia.
  - destruct ty; repeat case_decide; try (exfalso; intuition congruence);
      cbn [length]; lia.
Qed.

End SkippingFacts.

Lemma response_warnings_from_results_witness :
  response_warnings mixed_response = concat (map warnings (entity_results mixed_response)).
Proof.
  apply (response_warnings_from_results float_refuses_str ascii_upper writer_accepts
           setup_succeeds serialize_succeeds mixed_scene default_settings None None).
  vm_compute. reflexivity.
Defined.

(* ========================================================================= *)
(** ** Further properties of the filter, of validation and of the readers *)
(* ========================================================================= *)

Lemma sublist_map_se_id (l1 l2 : list SceneEntity) :
  l1 `sublist_of` l2 → map se_id l1 `sublist_of` map se_id l2.
Proof.
  induction 1 as [|x l1 l2 _ IH|x l1 l2 _ IH]; cbn [map].
  - apply sublist_nil.
  - apply sublist_skip, IH.
  - apply sublist_cons, IH.
Qed.

(** Filtering twice with the same criteria changes nothing more, filtering a
    concatenation is filtering its parts, and entities with distinct ids
    keep distinct ids. *)
Theorem filter_entities_idempotent ents ents' ids lns cfg :
  _filter_entities (_filter_entities ents ids lns cfg) ids lns cfg
  = _filter_entities ents ids lns cfg
  ∧ _filter_entities (ents ++ ents') ids lns cfg
    = _filter_entities ents ids lns cfg ++ _filter_entities ents' ids lns cfg
  ∧ (NoDup (map se_id ents) → NoDup (map se_id (_filter_entities ents ids lns cfg))).
Proof.
  rewrite !filter_entities_kept. split; [|split].
  - rewrite list_filter_filter. apply list_filter_iff. tauto.
  - apply filter_app.
  - intros Hnd. apply (sublist_NoDup _ _ Hnd).
    apply sublist_map_se_id, sublist_filter.
Qed.

Lemma filter_entities_idempotent_witness :
  NoDup (map se_id (_filter_entities (entities mixed_scene) (Some ["l1"]) None
                      default_layer_config)).
Proof.
  apply (filter_entities_idempotent (entities mixed_scene) [] (Some ["l1"]) None
           default_layer_config).
  vm_compute. repeat constructor; rewrite ?elem_of_cons, ?elem_of_nil;
    intuition discriminate.
Defined.

Lemma validate_entity_issues entity v :
  let r := _validate_entity entity v in
  (exportable r = true ∧ issues r = [])
  ∨ (exportable r = false
     ∧ errors_among (issues r) + warnings_among (issues r) = 1
     ∧ infos_among (issues r) = 0
     ∧ (v ≠ AC1009 → errors_among (issues r) = 0)).
Proof.
  cbv zeta. unfold _validate_entity.
  destruct (ENTITY_TYPE_MAPPING_get (se_type entity)) as [t|].
  - destruct (r12_incompatible v t) eqn:Hc.
    + right. cbn. repeat split.
      intros Hv. rewrite (r12_incompatible_other_version v t Hv) in Hc. discriminate.
    + left. split; reflexivity.
  - right. cbn. repeat split.
Qed.

Lemma warnings_among_app l1 l2 :
  warnings_among (l1 ++ l2) = warnings_among l1 + warnings_among l2.
Proof. unfold warnings_among. rewrite filter_app, length_app. lia. Qed.

Lemma infos_among_app l1 l2 :
  infos_among (l1 ++ l2) = infos_among l1 + infos_among l2.
Proof. unfold infos_among. rewrite filter_app, length_app. lia. Qed.

(** The loop of [validate_scene], for the counters that
    [validate_loop_spec] leaves out. *)
Lemma validate_loop_counts v ents acc :
  let acc' := fold_left (validate_step v) ents acc in
  let rs := map (λ e, _validate_entity e v) ents in
  va_exportable_count acc' = va_exportable_count acc + exportable_among rs
  ∧ va_warning_count acc' = va_warning_count acc + warnings_among (all_issues rs)
  ∧ va_info_count acc' = va_info_count acc + infos_among (all_issues rs).
Proof.
  cbv zeta. revert acc. induction ents as [|e ents IH]; intros acc.
  - cbn. unfold exportable_among, warnings_among, infos_among. cbn. lia.
  - cbn [fold_left map]. destruct (IH (validate_step v acc e)) as (-> & -> & ->).
    unfold validate_step. rewrite count_issue_fold.
    cbn [va_exportable_count va_warning_count va_info_count].
    change (_validate_entity e v :: ?l) with ([_validate_entity e v] ++ l).
    unfold all_issues, exportable_among.
    rewrite map_app, concat_app, warnings_among_app, infos_among_app,
      filter_app, length_app.
    cbn [map concat]. rewrite app_nil_r.
    rewrite filter_cons, filter_nil.
    destruct (exportable (_validate_entity e v));
      repeat case_decide; try congruence; cbn [length]; lia.
Qed.

(** In a validation response the exportable and the non-exportable entities
    add up to the total, the exportable count is the number of results
    marked exportable, every non-exportable entity accounts for exactly one
    error or warning, and no info is ever reported. Under any version other
    than AC1009 there is no error, so the scene is valid. *)
Theorem validation_counts scene v :
  let resp := validate_scene scene v in
  v_total_entities resp = Z.of_nat (length (entities scene))
  ∧ exportable_entities resp = exportable_among (v_entity_results resp)
  ∧ 0 ≤ exportable_entities resp ≤ v_total_entities resp
  ∧ exportable_entities resp + non_exportable_entities resp = v_total_entities resp
  ∧ errors (issue_summary resp) + summary_warnings (issue_summary resp)
    = non_exportable_entities resp
  ∧ info (issue_summary resp) = 0
  ∧ (v ≠ AC1009 → errors (issue_summary resp) = 0 ∧ valid resp = true).
Proof.
  intros resp.
  set (acc0 := {| va_entity_results := []; va_exportable_count := 0;
                  va_error_count := 0; va_warning_count := 0;
                  va_info_count := 0 |}).
  destruct (validate_loop_spec v (entities scene) acc0) as [Hres Herr].
  destruct (validate_loop_counts v (entities scene) acc0) as (Hx & Hw & Hi).
  cbn [acc0 va_entity_results va_error_count va_exportable_count
       va_warning_count va_info_count app] in Hres, Herr, Hx, Hw, Hi.
  unfold resp, validate_scene. fold acc0.
  cbn [v_total_entities exportable_entities non_exportable_entities
       v_entity_results issue_summary errors summary_warnings info valid].
  rewrite Hres, Hx, Hw, Hi, Herr.
  set (rs := map (λ e, _validate_entity e v) (entities scene)).
  assert (Z.of_nat (length (entities scene)) = Z.of_nat (length rs)) as Hlen
    by (unfold rs; rewrite length_map; reflexivity).
  assert (0 ≤ exportable_among rs ≤ Z.of_nat (length rs)) as Hb.
  { unfold exportable_among.
    pose proof (length_filter (λ r, exportable r = true) rs). lia. }
  assert (errors_among (all_issues rs) + warnings_among (all_issues rs)
          = Z.of_nat (length rs) - exportable_among rs
          ∧ infos_among (all_issues rs) = 0
          ∧ (v ≠ AC1009 → errors_among (all_issues rs) = 0)) as (Hsum & Hinfo & Hne).
  { unfold rs. clear. induction (entities scene) as [|e ents (IH1 & IH2 & IH3)].
    - cbn. unfold errors_among, warnings_among, infos_among, exportable_among.
      cbn. repeat split; lia.
    - cbn [map]. change (_validate_entity e v :: ?l) with ([_validate_entity e v] ++ l).
      unfold all_issues, exportable_among in *.
      rewrite map_app, concat_app, errors_among_app, warnings_among_app,
        infos_among_app, filter_app, !length_app.
      cbn [map concat]. rewrite app_nil_r, filter_cons, filter_nil.
      destruct (validate_entity_issues e v) as [[Hx Hi]|(Hx & Hs & Hi & Hv)];
        rewrite Hx.
      + rewrite Hi. unfold errors_among, warnings_among, infos_among in *.
        case_decide; [|congruence]. cbn [filter length] in *.
        repeat split; try (intros Hv; specialize (IH3 Hv)); cbn; lia.
      + case_decide; [congruence|]. cbn [length].
        repeat split; try (intros Hv'; specialize (IH3 Hv'); specialize (Hv Hv'));
          lia. }
  do 6 (split; [first [reflexivity | lia]|]).
  intros Hv. apply Hne in Hv. split; [lia|]. apply bool_decide_eq_true. lia.
Qed.

Lemma validation_counts_witness :
  valid (validate_scene mixed_scene AC1015) = true.
Proof.
  pose proof (validation_counts mixed_scene AC1015) as (_ & _ & _ & _ & _ & _ & H).
  apply H. discriminate.
Defined.

(** [_get_bool] answers with the first alias of the list whose value is a
    boolean: it is true exactly when that alias holds [True], and false
    when no alias holds a boolean; values of any other type, numbers
    included, are passed over. *)
Theorem get_bool_first_boolean entity keys :
  let data := model_dump entity in
  (_get_bool entity keys = true
   ↔ ∃ before key after,
       keys = before ++ key :: after
       ∧ Forall (λ k, ¬ holds_bool data k) before
       ∧ data !! key = Some (VBool true))
  ∧ (Forall (λ k, ¬ holds_bool data k) keys → _get_bool entity keys = false).
Proof.
  intros data. unfold _get_bool. fold data. clearbody data.
  induction keys as [|k keys [IH1 IH2]].
  - cbn. split; [|reflexivity]. split; [discriminate|].
    intros (before & key & after & H & _). destruct before; discriminate.
  - cbn [_get_bool_in].
    destruct (data !! k) as [x|] eqn:Hk;
      [destruct x as [|b|z|f|s|l|l|d]|].
    2:{ (* the alias holds a boolean: it answers *)
      split.
      - split.
        + intros ->. exists [], k, keys. repeat split; auto.
        + intros (before & key & after & Heq & Hall & Hkey).
          destruct before as [|k' before]; cbn in Heq; injection Heq as <- ->.
          * rewrite Hk in Hkey. injection Hkey as ->. reflexivity.
          * inversion Hall as [|? ? Hno _]; subst. exfalso. apply Hno.
            exists b. exact Hk.
      - intros Hall. inversion Hall as [|? ? Hno _]; subst. exfalso. apply Hno.
        exists b. exact Hk. }
    all: assert (¬ holds_bool data k) as Hnot
           by (intros [b Hb]; rewrite Hk in Hb; discriminate).
    all: split;
      [ rewrite IH1; split;
        [ intros (before & key & after & -> & Hall & Hkey);
          exists (k :: before), key, after; repeat split; auto
        | intros (before & key & after & Heq & Hall & Hkey);
          destruct before as [|k' before]; cbn in Heq; injection Heq as <- ->;
          [ rewrite Hk in Hkey; discriminate
          | exists before, key, after; inversion Hall; subst; auto ] ]
      | intros Hall; inversion Hall; subst; auto ].
Qed.

Lemma color_map_range k z : color_map !! k = Some z → 0 ≤ z ≤ 7.
Proof.
  unfold color_map. intros E. apply elem_of_list_to_map_2 in E.
  rewrite !elem_of_cons, elem_of_nil in E.
  repeat (destruct E as [E|E]; [injection E as _ ->; lia|]).
  contradiction.
Qed.

Section ColourFacts.

Variable str_upper : string -> string.

(** The colour index is always between 0 and 7, and is 7 (white) for every
    colour whose upper-cased text is not one of the eight of the palette.
    The common attributes hold a colour exactly when the entity has a
    non-empty colour, and then it is that index; besides the layer they hold
    nothing else. *)
Theorem colour_index_in_palette entity settings c :
  0 ≤ _hex_to_aci str_upper c ≤ 7
  ∧ (str_upper c ∉ ["#FF0000"; "#FFFF00"; "#00FF00"; "#00FFFF"; "#0000FF";
                     "#FF00FF"; "#FFFFFF"; "#000000"] →
     _hex_to_aci str_upper c = 7)
  ∧ common_attribs str_upper entity settings !! "color"
    = (if opt_str_truthy (se_color entity)
       then AInt <$> (_hex_to_aci str_upper <$> se_color entity)
       else None)
  ∧ (∀ k, is_Some (common_attribs str_upper entity settings !! k) →
          k = "layer" ∨ k = "color").
Proof.
  split; [|split; [|split]].
  - unfold _hex_to_aci. destruct (color_map !! str_upper c) as [z|] eqn:E; [|lia].
    exact (color_map_range _ _ E).
  - intros Hnot. unfold _hex_to_aci.
    destruct (color_map !! str_upper c) as [z|] eqn:E; [|reflexivity].
    exfalso. apply Hnot. unfold color_map in E. apply elem_of_list_to_map_2 in E.
    rewrite !elem_of_cons, elem_of_nil in E. rewrite !elem_of_cons.
    repeat (destruct E as [E|E]; [injection E as -> _; tauto|]).
    contradiction.
  - unfold common_attribs. destruct (se_color entity) as [col|]; cbn.
    + destruct (str_truthy col); [apply lookup_insert_eq|].
      apply lookup_singleton_ne. discriminate.
    + apply lookup_singleton_ne. discriminate.
  - intros k. unfold common_attribs.
    destruct (opt_str_truthy (se_color entity)).
    + rewrite lookup_insert. case_decide; [auto|].
      rewrite lookup_singleton. case_decide; [auto|]. intros [? ?]. discriminate.
    + rewrite lookup_singleton. case_decide; [auto|]. intros [? ?]. discriminate.
Qed.

End ColourFacts.

(* ========================================================================= *)
(** ** Properties of layer creation *)
(* ========================================================================= *)

Section LayerFacts.

Variable str_upper : string -> string.
Variable layer_add_raises : list DxfLayer -> string -> option exn.
Variable layer_color_raises : Z -> option exn.
Variable layer_in : list DxfLayer -> string -> bool.

Local Abbreviation add_layer :=
  (add_scene_layer str_upper layer_add_raises layer_color_raises).
Local Abbreviation step :=
  (create_layers_step str_upper layer_add_raises layer_color_raises).
Local Abbreviation create_layers :=
  (_create_layers str_upper layer_add_raises layer_color_raises layer_in).

Lemma add_scene_layer_effect table layer name :
  match layer_add_raises table name with
  | Some _ => add_layer table layer name = table
  | None =>
      ∃ d, add_layer table layer name = table ++ [d]
           ∧ dl_name d = name
           ∧ (dl_locked d = true → sl_locked layer = true)
  end.
Proof.
  unfold add_scene_layer. destruct (layer_add_raises table name); [reflexivity|].
  destruct (opt_str_truthy (sl_color layer)).
  - destruct (layer_color_raises _); eexists; (split; [reflexivity|]); cbn; auto.
    split; [reflexivity|discriminate].
  - eexists. split; [reflexivity|]. cbn. auto.
Qed.

Lemma create_layers_step_skip config table layer :
  ¬ eligible_layer config layer ∨ opt_str_truthy (flatten_to_layer config) = true →
  step config table layer = table.
Proof.
  unfold create_layers_step, eligible_layer.
  destruct (visible_only config), (sl_visible layer), (include_locked config),
    (sl_locked layer); cbn; try reflexivity;
    (intros [H | ->]; [exfalso; apply H; split; congruence | reflexivity]).
Qed.

Lemma create_layers_step_add config table layer :
  eligible_layer config layer →
  opt_str_truthy (flatten_to_layer config) = false →
  step config table layer = add_layer table layer (mapped_layer_name config layer).
Proof.
  unfold create_layers_step, eligible_layer. intros [Hv Hl] ->.
  destruct (visible_only config), (sl_visible layer), (include_locked config),
    (sl_locked layer); cbn; try reflexivity;
    try specialize (Hv eq_refl); try specialize (Hl eq_refl); congruence.
Qed.

(** The loop of [_create_layers] only appends to the layer table. The names
    it adds are mapped names of scene layers that are visible when only
    visible layers are wanted and unlocked unless locked layers are
    included, in scene order; an entry is locked only when locked layers are
    included; nothing is added when a flatten target is configured. When no
    addition raises and nothing is flattened, one layer is added for each
    such scene layer. *)
Theorem created_layers_are_eligible config layers table :
  ∃ added,
    fold_left (step config) layers table = table ++ added
    ∧ map dl_name added
      `sublist_of` map (mapped_layer_name config) (filter (eligible_layer config) layers)
    ∧ Forall (λ d, dl_locked d = true → include_locked config = true) added
    ∧ (opt_str_truthy (flatten_to_layer config) = true → added = [])
    ∧ ((∀ t n, layer_add_raises t n = None) →
       opt_str_truthy (flatten_to_layer config) = false →
       map dl_name added
       = map (mapped_layer_name config) (filter (eligible_layer config) layers)).
Proof.
  revert table. induction layers as [|layer layers IH]; intros table.
  - exists []. cbn. rewrite app_nil_r. repeat split; auto.
  - cbn [fold_left]. rewrite filter_cons.
    destruct (decide (eligible_layer config layer)) as [Hel|Hnel].
    + destruct (opt_str_truthy (flatten_to_layer config)) eqn:Hf.
      * rewrite create_layers_step_skip by auto.
        destruct (IH table) as (added & Heq & Hsub & Hlock & Hflat & Hall).
        exists added. repeat split; auto.
        -- cbn [map]. apply sublist_cons. exact Hsub.
        -- discriminate.
      * rewrite create_layers_step_add by auto.
        pose proof (add_scene_layer_effect table layer
                      (mapped_layer_name config layer)) as Hadd.
        destruct (layer_add_raises table (mapped_layer_name config layer))
          as [ex|] eqn:Hr.
        -- rewrite Hadd. destruct (IH table) as (added & Heq & Hsub & Hlock & _ & Hall).
           exists added. repeat split; auto.
           ++ cbn [map]. apply sublist_cons. exact Hsub.
           ++ discriminate.
           ++ intros Hnever. rewrite Hnever in Hr. discriminate.
        -- destruct Hadd as (d & -> & Hname & Hlocked).
           destruct (IH (table ++ [d])) as (added & Heq & Hsub & Hlock & _ & Hall).
           exists (d :: added). rewrite Heq, <- app_assoc. cbn [app map].
           repeat split.
           ++ rewrite Hname. apply sublist_skip. exact Hsub.
           ++ constructor; [|exact Hlock]. intros Hd. apply Hel, Hlocked, Hd.
           ++ discriminate.
           ++ intros Hnever _. rewrite Hname. f_equal. apply Hall; auto.
    + rewrite create_layers_step_skip by auto.
      destruct (IH table) as (added & Heq & Hsub & Hlock & Hflat & Hall).
      exists added. repeat split; auto.
Qed.

(** With a flatten target configured the scene layers play no part in layer
    creation. Creation raises only when the addition of the ensured layer
    (the flatten target, else the default layer) raises, never because of a
    scene layer; and when it returns, the table it returns extends the one
    it was given and holds the ensured layer, by the writer's own test or by
    name. *)
Theorem create_layers_ensures_target config layers table :
  (opt_str_truthy (flatten_to_layer config) = true →
   create_layers table layers config = create_layers table [] config)
  ∧ (∀ e, create_layers table layers config = Raise e →
       ∃ t, layer_in t (ensured_layer config) = false
            ∧ layer_add_raises t (ensured_layer config) = Some e)
  ∧ (∀ t', create_layers table layers config = Ok t' →
       (∃ more, t' = table ++ more)
       ∧ (layer_in t' (ensured_layer config) = true
          ∨ ensured_layer config ∈ map dl_name t')).
Proof.
  destruct (created_layers_are_eligible config layers table)
    as (added & Heq & _ & _ & Hflat & _).
  unfold _create_layers. rewrite Heq. split; [|split].
  - intros Hf. rewrite (Hflat Hf), app_nil_r. reflexivity.
  - intros e. destruct (layer_in (table ++ added) (ensured_layer config)) eqn:Hin;
      [discriminate|].
    destruct (layer_add_raises (table ++ added) (ensured_layer config)) eqn:Hr;
      [|discriminate].
    intros [= <-]. eauto.
  - intros t'. destruct (layer_in (table ++ added) (ensured_layer config)) eqn:Hin.
    + intros [= <-]. split; [eauto|]. left. exact Hin.
    + destruct (layer_add_raises (table ++ added) (ensured_layer config));
        [discriminate|].
      intros [= <-]. split.
      * rewrite <- app_assoc. eauto.
      * right. rewrite map_app. apply elem_of_app. right. left.
Qed.

End LayerFacts.

(* ========================================================================= *)
(** ** Properties of the file name *)
(* ========================================================================= *)

Lemma append_cancel_l (s a b : string) : s +:+ a = s +:+ b → a = b.
Proof.
  induction s as [|c s IH]; cbn; [auto|]. intros [= H]. auto.
Qed.

Lemma DxfVersion_value_inj v1 v2 :
  DxfVersion_value v1 = DxfVersion_value v2 → v1 = v2.
Proof. destruct v1, v2; cbn; intros H; first [reflexivity | discriminate]. Qed.

Section FilenameFacts.

Variable str_chars : string -> list string.
Variable str_isalnum : string -> bool.

Local Abbreviation filename := (_generate_filename str_chars str_isalnum).
Local Abbreviation safe := (safe_char str_isalnum).

Local Abbreviation stays := (stays str_isalnum).

Lemma safe_char_stays c : stays c → safe c = c.
Proof.
  unfold stays, safe_char. intros [-> | ->]; [reflexivity|].
  rewrite orb_true_r. reflexivity.
Qed.

(** The suggested file name is a base name followed by an underscore, the
    code of the target version and [.dxf]. The base is [export] when the
    metadata name is not a string; otherwise it has one piece per character
    of the name, the character itself when it is alphanumeric, a hyphen or
    an underscore, and an underscore in its place when it is not. A name
    made only of such characters is therefore kept as it is, and the same
    scene gets different file names under different versions. *)
Theorem filename_is_sanitized scene settings :
  (∀ s, dict_get (metadata scene) "name" (VStr "export") = VStr s →
     ∃ pieces,
       filename scene settings
       = str_join pieces +:+ "_" +:+ DxfVersion_value (version settings) +:+ ".dxf"
       ∧ Forall2 (λ c piece, (stays c ∧ piece = c) ∨ (¬ stays c ∧ piece = "_"))
           (str_chars s) pieces)
  ∧ (∀ s, dict_get (metadata scene) "name" (VStr "export") = VStr s →
     str_join (str_chars s) = s →
     Forall stays (str_chars s) →
     filename scene settings
     = s +:+ "_" +:+ DxfVersion_value (version settings) +:+ ".dxf")
  ∧ ((∀ s, dict_get (metadata scene) "name" (VStr "export") ≠ VStr s) →
     filename scene settings
     = "export_" +:+ DxfVersion_value (version settings) +:+ ".dxf")
  ∧ (∀ settings',
       filename scene settings = filename scene settings' →
       version settings = version settings').
Proof.
  split; [|split; [|split]].
  - intros s Hs. exists (map safe (str_chars s)). unfold _generate_filename.
    rewrite Hs. split; [reflexivity|].
    induction (str_chars s) as [|c cs IH]; cbn [map]; constructor; [|exact IH].
    unfold safe_char, stays.
    destruct (str_isalnum c), (in_hyphen_underscore c); cbn;
      first [left; split; [auto|reflexivity]
            | right; split; [intros [?|?]; discriminate|reflexivity]].
  - intros s Hs Hjoin Hall. unfold _generate_filename. rewrite Hs.
    assert (∀ l, Forall stays l → map safe l = l) as Hmap.
    { induction 1 as [|c cs Hc _ IH]; [reflexivity|].
      cbn [map]. rewrite (safe_char_stays c Hc), IH. reflexivity. }
    rewrite (Hmap _ Hall), Hjoin. reflexivity.
  - intros Hns. unfold _generate_filename.
    destruct (dict_get (metadata scene) "name" (VStr "export")) as [|b|z|f|s|l|l|d];
      try reflexivity.
    exfalso. apply (Hns s). reflexivity.
  - intros settings' H. unfold _generate_filename in H.
    apply append_cancel_l in H. apply (append_cancel_l "_") in H.
    apply DxfVersion_value_inj.
    destruct (version settings), (version settings'); cbn in H;
      first [reflexivity | discriminate H].
Qed.

End FilenameFacts.

Lemma filename_is_sanitized_witness :
  _generate_filename ascii_chars ascii_isalnum named_scene default_settings
  = "My_Drawing__AC1015.dxf"
  ∧ _generate_filename ascii_chars ascii_isalnum clean_named_scene r12_settings
    = "plan-A_2_AC1009.dxf".
Proof.
  split.
  - vm_compute. reflexivity.
  - pose proof (filename_is_sanitized ascii_chars ascii_isalnum clean_named_scene
                  r12_settings) as (_ & Hclean & _).
    apply (Hclean "plan-A_2").
    + vm_compute. reflexivity.
    + vm_compute. reflexivity.
    + unfold ascii_chars.
      repeat (constructor; [first [left; reflexivity | right; reflexivity]|]).
      constructor.
Defined.

(* ========================================================================= *)
(** ** Properties of the export endpoint and of the version tables *)
(* ========================================================================= *)

Section EndpointFacts.

Variable float_of_str : string -> option pyfloat.
Variable str_upper : string -> string.
Variable writer_raises : Modelspace -> primitive -> option exn.
Variable setup_raises : SceneModel -> DxfExportSettings -> option exn.
Variable serialize_raises : Modelspace -> DxfEncoding -> option exn.

Local Abbreviation endpoint :=
  (Api.export_scene float_of_str str_upper writer_raises setup_raises
     serialize_raises).
Local Abbreviation export := (export_scene float_of_str str_upper writer_raises
                                setup_raises serialize_raises).

(** The two gates of the export route come before any processing and in
    this order: with the feature flag off every request is refused with 503,
    whatever it holds; with the flag on, a scene of more entities than the
    configured maximum is refused with 413. As the maximum is constrained to
    lie between 100 and 100000, a scene of at most 100 entities is never
    refused for its size, and one of more than 100000 always is. *)
Theorem export_endpoint_gates app request :
  let entity_count := Z.of_nat (length (entities (rq_scene request))) in
  (feature_flag_enabled app = false →
   endpoint app request = HTTPException 503 "FEATURE_DISABLED")
  ∧ (feature_flag_enabled app = true →
     entity_count > max_entities_per_request app →
     endpoint app request = HTTPException 413 "ENTITY_LIMIT_EXCEEDED")
  ∧ (max_entities_in_range app → entity_count ≤ 100 →
     ∀ code, endpoint app request ≠ HTTPException 413 code)
  ∧ (max_entities_in_range app → feature_flag_enabled app = true →
     100000 < entity_count →
     endpoint app request = HTTPException 413 "ENTITY_LIMIT_EXCEEDED").
Proof.
  intros entity_count.
  assert (feature_flag_enabled app = true →
          entity_count > max_entities_per_request app →
          endpoint app request = HTTPException 413 "ENTITY_LIMIT_EXCEEDED") as H413.
  { intros Hf Hn. unfold Api.export_scene, check_feature_flag. rewrite Hf. cbn.
    fold entity_count. rewrite bool_decide_eq_true_2 by exact Hn. reflexivity. }
  split; [|split; [exact H413|split]].
  - intros Hf. unfold Api.export_scene, check_feature_flag. rewrite Hf. reflexivity.
  - intros [Hlo Hhi] Hn code. unfold Api.export_scene, check_feature_flag.
    destruct (feature_flag_enabled app); cbn; [|discriminate].
    fold entity_count. rewrite bool_decide_eq_false_2 by lia.
    destruct (export _ _ _ _) as [r|[]]; discriminate.
  - intros [Hlo Hhi] Hf Hn. apply H413; [exact Hf|lia].
Qed.


End EndpointFacts.


(** The version tables agree: the settings validator accepts exactly the
    codes of [DxfVersion] and raises [ValueError] on every other string, so
    each version an export can target is one the settings may name as the
    default, among them the default target of the export settings and the
    default of the application settings; and the seven versions map to
    seven different release names of the writer. *)
Theorem version_tables_agree s :
  (validate_dxf_version s = Ok s ↔ ∃ v, DxfVersion_value v = s)
  ∧ (validate_dxf_version s = Raise ValueError ↔ ¬ ∃ v, DxfVersion_value v = s)
  ∧ (∀ v, validate_dxf_version (DxfVersion_value v) = Ok (DxfVersion_value v))
  ∧ validate_dxf_version (default_dxf_version default_app_settings)
    = Ok (DxfVersion_value (version default_settings))
  ∧ (∀ v1 v2, DXF_VERSION_MAP v1 = DXF_VERSION_MAP v2 → v1 = v2).
Proof.
  assert (s ∈ supported_versions ↔ ∃ v, DxfVersion_value v = s) as Hin.
  { unfold supported_versions. rewrite elem_of_list_to_set, !elem_of_cons, elem_of_nil.
    split.
    - intros [->|[->|[->|[->|[->|[->|[->|[]]]]]]]];
        [exists AC1009|exists AC1015|exists AC1018|exists AC1021|exists AC1024
        |exists AC1027|exists AC1032]; reflexivity.
    - intros [v <-]. destruct v; cbn; tauto. }
  unfold validate_dxf_version.
  split; [|split; [|split; [|split]]].
  - rewrite <- Hin. case_bool_decide; split; try discriminate; try tauto.
  - rewrite <- Hin. case_bool_decide; split; try discriminate; try tauto.
  - intros v. destruct v; vm_compute; reflexivity.
  - vm_compute. reflexivity.
  - intros v1 v2. destruct v1, v2; cbn; intros H;
      first [reflexivity | discriminate H].
Qed.

(* ========================================================================= *)
(** ** The later properties on the samples *)
(* ========================================================================= *)

Lemma created_layers_are_eligible_witness :
  ∃ added,
    fold_left
      (create_layers_step ascii_upper layer_add_accepts layer_color_accepts
         default_layer_config)
      sample_layers new_layer_table
    = new_layer_table ++ added
    ∧ map dl_name added = ["Walls"; "A"].
Proof.
  destruct (created_layers_are_eligible ascii_upper layer_add_accepts
              layer_color_accepts default_layer_config sample_layers
              new_layer_table) as (added & Heq & _ & _ & _ & Hall).
  exists added. split; [exact Heq|].
  rewrite Hall; [vm_compute; reflexivity | reflexivity | reflexivity].
Defined.

Lemma create_layers_ensures_target_witness :
  _create_layers ascii_upper layer_add_refuses_known layer_color_accepts
    layer_in_by_name new_layer_table sample_layers flatten_config
  = Ok (new_layer_table
        ++ [{| dl_name := "OUT"; dl_color := None; dl_locked := false |}]).
Proof.
  pose proof (create_layers_ensures_target ascii_upper layer_add_refuses_known
                layer_color_accepts layer_in_by_name flatten_config sample_layers
                new_layer_table) as (Hflat & _).
  rewrite Hflat by reflexivity. vm_compute. reflexivity.
Defined.

Lemma export_endpoint_gates_witness :
  Api.export_scene float_refuses_str ascii_upper writer_accepts setup_succeeds
    serialize_succeeds default_app_settings mixed_request
  = HTTPException 503 "FEATURE_DISABLED".
Proof.
  apply (export_endpoint_gates float_refuses_str ascii_upper writer_accepts
           setup_succeeds serialize_succeeds default_app_settings mixed_request).
  reflexivity.
Defined.

(* ========================================================================= *)
(** ** Properties of the header set-up *)
(* ========================================================================= *)

Section HeaderFacts.

Variable header_refuses : string -> header_value -> option header_refusal.

Local Abbreviation loop := (custom_header_loop header_refuses).
Local Abbreviation set_header := (_set_header_variables header_refuses).

Lemma custom_loop_preserves items header header' k :
  loop items header = Ok header' →
  k ∉ map fst items →
  header' !! k = header !! k.
Proof.
  revert header. induction items as [|[k0 v0] items IH]; intros header; cbn.
  - intros [= <-] _. reflexivity.
  - rewrite not_elem_of_cons. unfold custom_header_step. cbn [fst snd].
    destruct (header_refuses k0 v0) as [[|e]|]; cbn; try discriminate;
      intros H [Hne Hnot]; rewrite (IH _ H Hnot); [reflexivity|].
    apply lookup_insert_ne. congruence.
Qed.

Lemma custom_loop_last_write items header header' k v :
  loop items header = Ok header' →
  NoDup (map fst items) →
  (k, v) ∈ items →
  header_refuses k v = None →
  header' !! k = Some v.
Proof.
  revert header. induction items as [|[k0 v0] items IH]; intros header; cbn.
  - intros _ _ Hin. apply elem_of_nil in Hin. contradiction.
  - intros H Hnd Hin Hacc. apply NoDup_cons in Hnd as [Hnot Hnd].
    apply elem_of_cons in Hin as [[= <- <-]|Hin].
    + unfold custom_header_step in H. cbn [fst snd] in H. rewrite Hacc in H. cbn in H.
      rewrite (custom_loop_preserves _ _ _ k H Hnot). apply lookup_insert_eq.
    + destruct (custom_header_step header_refuses header (k0, v0)) as [h1|e];
        cbn in H; [|discriminate].
      exact (IH h1 H Hnd Hin Hacc).
Qed.

Lemma custom_loop_refused_ignored items header :
  loop items header
  = loop (filter (λ item, refused_as_value_error (header_refuses item.1 item.2) = false) items)
      header.
Proof.
  revert header. induction items as [|[k0 v0] items IH]; intros header; [reflexivity|].
  rewrite filter_cons. cbn [fst snd].
  destruct (decide (refused_as_value_error (header_refuses k0 v0) = false))
    as [Hne|Heq].
  - cbn. destruct (custom_header_step header_refuses header (k0, v0)); cbn; auto.
  - cbn. unfold custom_header_step. cbn [fst snd].
    destruct (header_refuses k0 v0) as [[|e]|]; cbn in *; first [congruence | apply IH].
Qed.

Lemma custom_loop_raises items header e :
  loop items header = Raise e →
  ∃ k v, (k, v) ∈ items ∧ header_refuses k v = Some (OtherError e).
Proof.
  revert header. induction items as [|[k0 v0] items IH]; intros header; cbn;
    [discriminate|].
  unfold custom_header_step. cbn [fst snd].
  destruct (header_refuses k0 v0) as [[|e0]|] eqn:Hr; cbn.
  - intros H. destruct (IH _ H) as (k & v & Hin & Hk). exists k, v. split; [right|]; auto.
  - intros [= <-]. exists k0, v0. split; [left|exact Hr].
  - intros H. destruct (IH _ H) as (k & v & Hin & Hk). exists k, v. split; [right|]; auto.
Qed.

(** The unit is written as a code between 0 and 7, a different one for each
    unit (4 for millimetres), and the custom variables are applied after it
    and after the application name, so that an accepted custom variable
    overrides them: when the set-up returns, the header holds for every
    accepted custom variable its value, and the unit code unless a custom
    variable named [$INSUNITS] was given. A custom variable that the writer
    refuses with [DXFValueError] is as if it were not there; an exception of
    the loop is another exception of the writer on a custom variable. *)
Theorem header_custom_variables_win header settings :
  (∀ u, ∃ code, UNIT_VALUES u = Some code ∧ 0 ≤ code ≤ 7)
  ∧ (∀ u1 u2, UNIT_VALUES u1 = UNIT_VALUES u2 → u1 = u2)
  ∧ (∀ header',
       set_header header settings = Ok header' →
       (∀ k v, NoDup (map fst (header_variables settings)) →
               (k, v) ∈ header_variables settings →
               header_refuses k v = None →
               header' !! k = Some v)
       ∧ ("$INSUNITS" ∉ map fst (header_variables settings) →
          header' !! "$INSUNITS" = HInt <$> UNIT_VALUES (units settings)))
  ∧ set_header header settings
    = set_header header
        {| units := units settings;
           include_metadata := include_metadata settings;
           application_name := application_name settings;
           header_variables :=
             filter (λ item, refused_as_value_error (header_refuses item.1 item.2) = false)
               (header_variables settings) |}
  ∧ (∀ e, set_header header settings = Raise e →
       header_refuses "$INSUNITS" (HInt (default 4 (UNIT_VALUES (units settings))))
       = Some (OtherError e)
       ∨ e = WriterError "DXFValueError"
       ∨ header_refuses "$LASTSAVEDBY" (HStr (application_name settings))
         = Some (OtherError e)
       ∨ ∃ k v, (k, v) ∈ header_variables settings
                ∧ header_refuses k v = Some (OtherError e)).
Proof.
  split; [|split; [|split; [|split]]].
  - intros u. destruct u; eexists; (split; [reflexivity|lia]).
  - intros u1 u2. destruct u1, u2; cbn; intros H; first [reflexivity|discriminate H].
  - intros header'. unfold _set_header_variables, header_assign.
    destruct (header_refuses "$INSUNITS" _); cbn; [discriminate|].
    set (h1 := <["$INSUNITS" := _]> header).
    assert (h1 !! "$INSUNITS" = HInt <$> UNIT_VALUES (units settings)) as Hu.
    { unfold h1. rewrite lookup_insert_eq. destruct (units settings); reflexivity. }
    destruct (include_metadata settings).
    + destruct (header_refuses "$LASTSAVEDBY" _); cbn; [discriminate|].
      intros H. split.
      * intros k v Hnd Hin Hacc. exact (custom_loop_last_write _ _ _ k v H Hnd Hin Hacc).
      * intros Hnot. rewrite (custom_loop_preserves _ _ _ _ H Hnot).
        rewrite lookup_insert_ne by discriminate. exact Hu.
    + cbn. intros H. split.
      * intros k v Hnd Hin Hacc. exact (custom_loop_last_write _ _ _ k v H Hnd Hin Hacc).
      * intros Hnot. rewrite (custom_loop_preserves _ _ _ _ H Hnot). exact Hu.
  - unfold _set_header_variables. cbn [units include_metadata application_name
      header_variables].
    destruct (header_assign _ _ _ _) as [h1|]; cbn; [|reflexivity].
    destruct (if include_metadata settings then _ else _) as [h2|]; cbn; [|reflexivity].
    apply custom_loop_refused_ignored.
  - intros e. unfold _set_header_variables, header_assign.
    destruct (header_refuses "$INSUNITS" _) as [[|e0]|]; cbn.
    + intros [= <-]. auto.
    + intros [= <-]. auto.
    + destruct (include_metadata settings).
      * destruct (header_refuses "$LASTSAVEDBY" _) as [[|e0]|]; cbn.
        -- intros [= <-]. auto.
        -- intros [= <-]. auto.
        -- intros H. right. right. right. exact (custom_loop_raises _ _ _ H).
      * cbn. intros H. right. right. right. exact (custom_loop_raises _ _ _ H).
Qed.

End HeaderFacts.

Lemma header_custom_variables_win_witness :
  ∃ header',
    _set_header_variables header_refuses_undollared ∅ sample_header_settings
    = Ok header'
    ∧ header' !! "$INSUNITS" = Some (HInt 6).
Proof.
  destruct (_set_header_variables header_refuses_undollared ∅ sample_header_settings)
    as [header'|e] eqn:H; [|vm_compute in H; discriminate H].
  exists header'. split; [reflexivity|].
  pose proof (header_custom_variables_win header_refuses_undollared ∅
                sample_header_settings) as (_ & _ & Hset & _).
  apply (Hset header' H).
  - vm_compute. repeat constructor; rewrite ?elem_of_cons, ?elem_of_nil;
      intuition discriminate.
  - left.
  - reflexivity.
Defined.
